(** * SiriusJobs back end: the consultation session engine

    A shallow embedding of the flexible-duration consultation session of
    the back end (the mongoose model [ConsultationSession], the payment
    controller that creates, activates and extends sessions, the two
    Socket.IO message relays, the review gate and the client token
    utilities), followed by the properties of the session state machine.

    Conventions of the embedding:
    - a JavaScript [Date] is its [getTime()] value, an integer number of
      milliseconds ([Z]); an optional date field is an [option Z];
    - JavaScript numbers that hold hour counts, amounts in kobo and
      counters are integers ([Z]); an amount that a reply converts to
      naira ([/ 100]) is a rational ([Q]);
    - a mongoose collection is a finite map from the document [_id] to the
      document; [save()] writes the document back under its [_id];
    - every handler receives the instant [now] at which it runs; the
      consecutive [new Date()] / [Date.now()] reads of one handler are that
      one instant;
    - a document id is the string of its [ObjectId] (the worked booking
      abbreviates the ids to ["s1"], ["c1"], ["p1"]), and the documents
      of the store satisfy the bounds of their schema;
    - a [throw] is the [Throw] result of the [Except] type, and the
      [catch] block of a controller turns it into the 500 reply. *)

From stdpp Require Import gmap strings list fin_maps.
From Stdlib Require Import ZArith Lia Ascii QArith.

Open Scope string_scope.
Open Scope Z_scope.

(** ** Exceptions *)

Inductive Except (A : Type) : Type :=
| Ok (a : A)
| Throw (message : string).
Arguments Ok {A} a.
Arguments Throw {A} message.

#[global] Instance Except_ret : MRet Except := λ A a, Ok a.
#[global] Instance Except_bind : MBind Except := λ A B f m,
  match m with
  | Ok a => f a
  | Throw e => Throw e
  end.

(** ** The session document

    The flexible-duration [ConsultationSession] model, second document of
    backend/src/models/Withdrawal.ts. *)

Inductive PaymentStatus := PayPending | PayCompleted | PayFailed | PayRefunded.
Inductive PaymentMethod := Paystack | Stripe | OtherMethod.

(** The status strings.  ['pending'], ['active'], ['expired'],
    ['completed'] and ['cancelled'] are the enum of the flexible-duration
    schema; ['ended'] is the terminal status of the fixed-window schema
    (backend/src/models/ConsultationSession.ts) and of the specification. *)
Inductive SessionStatus :=
  pending | active | expired | completed | cancelled | ended.

#[global] Instance PaymentStatus_eq_dec : EqDecision PaymentStatus.
Proof. solve_decision. Defined.
#[global] Instance SessionStatus_eq_dec : EqDecision SessionStatus.
Proof. solve_decision. Defined.

(** One element of the [extensions] array. *)
Module Ext.
Record t := mk {
  extendedAt : Z;
  additionalHours : Z;
  additionalAmount : Z;
  paymentReference : string;
  newExpiresAt : Z;
}.
End Ext.

Record Session := mkSession {
  _id : string;
  professionalId : string;
  clientId : string;
  clientUsername : string;
  (* payment details *)
  paymentStatus : PaymentStatus;
  paymentAmount : Z;
  paymentReference : string;
  paymentMethod : PaymentMethod;
  paidAt : option Z;
  (* session timing *)
  status : SessionStatus;
  selectedDuration : Z;
  currentDuration : Z;
  durationHours : Z;
  pricePerHour : Z;
  minimumDuration : Z;
  startedAt : option Z;
  endsAt : option Z;
  expiresAt : option Z;
  (* extension tracking *)
  isExtended : bool;
  extensionCount : Z;
  extensions : list Ext.t;
  (* messaging *)
  lastMessageAt : option Z;
  hasUnreadMessages : bool;
  messageCount : Z;
  (* session token for client authentication *)
  sessionToken : string;
}.

(** One hour, in milliseconds: the literal [3600000] of the source. *)
Definition HOUR_MS : Z := 3600000.

(** The last instant a JavaScript [Date] holds: [new Date(t)] is an
    invalid date beyond it, and mongoose refuses to save one. *)
Definition MAX_DATE_MS : Z := 8640000000000000.

(** [isExpired]: [if (!this.expiresAt) return false; return new Date() > this.expiresAt]. *)
Definition isExpired (now : Z) (s : Session) : bool :=
  match expiresAt s with
  | None => false
  | Some e => bool_decide (now > e)
  end.

(** [isActive]: status, payment status and expiry. *)
Definition isActive (now : Z) (s : Session) : bool :=
  bool_decide (status s = active)
  && bool_decide (paymentStatus s = PayCompleted)
  && negb (isExpired now s).

(** [getRemainingTime]. *)
Definition getRemainingTime (now : Z) (s : Session) : Z :=
  match expiresAt s with
  | None => 0
  | Some e => Z.max 0 (e - now)
  end.

(** [startSession]: throws unless the payment is completed; otherwise
    stamps the start and the expiry.  There is no test of [status]. *)
Definition startSession (now : Z) (s : Session) : Except Session :=
  if bool_decide (paymentStatus s ≠ PayCompleted) then
    Throw "Payment must be completed before starting session"
  else
    Ok {| _id := _id s; professionalId := professionalId s;
          clientId := clientId s; clientUsername := clientUsername s;
          paymentStatus := paymentStatus s; paymentAmount := paymentAmount s;
          paymentReference := paymentReference s;
          paymentMethod := paymentMethod s; paidAt := paidAt s;
          status := active;
          selectedDuration := selectedDuration s;
          currentDuration := currentDuration s;
          durationHours := durationHours s; pricePerHour := pricePerHour s;
          minimumDuration := minimumDuration s;
          startedAt := Some now;
          endsAt := Some (now + currentDuration s);
          expiresAt := Some (now + currentDuration s);
          isExtended := isExtended s; extensionCount := extensionCount s;
          extensions := extensions s;
          lastMessageAt := lastMessageAt s;
          hasUnreadMessages := hasUnreadMessages s;
          messageCount := messageCount s;
          sessionToken := sessionToken s |}.

(** [this.expiresAt?.getTime() || Date.now()]: the stored expiry, or the
    clock when the field is unset or its time value is the falsy [0]. *)
Definition expiryOrNow (now : Z) (s : Session) : Z :=
  match expiresAt s with
  | Some e => if bool_decide (e = 0) then now else e
  | None => now
  end.

(** [calculateExtensionCost]. *)
Definition calculateExtensionCost (s : Session) (additionalHours : Z) : Z :=
  additionalHours * pricePerHour s.

(** [extendSession]: the two guards are the status and the hour count;
    neither the expiry instant nor the payment reference is examined. *)
Definition extendSession (now : Z) (additionalHours : Z) (reference : string)
    (s : Session) : Except Session :=
  if bool_decide (status s ≠ active) then
    Throw "Only active sessions can be extended"
  else if bool_decide (additionalHours < 1) then
    Throw "Extension must be at least 1 hour"
  else
    let additionalMs := additionalHours * 3600000 in
    let additionalAmount := additionalHours * pricePerHour s in
    let newExpiresAt := expiryOrNow now s + additionalMs in
    Ok {| _id := _id s; professionalId := professionalId s;
          clientId := clientId s; clientUsername := clientUsername s;
          paymentStatus := paymentStatus s;
          paymentAmount := paymentAmount s + additionalAmount;
          paymentReference := paymentReference s;
          paymentMethod := paymentMethod s; paidAt := paidAt s;
          status := status s;
          selectedDuration := selectedDuration s;
          currentDuration := currentDuration s + additionalMs;
          durationHours := durationHours s; pricePerHour := pricePerHour s;
          minimumDuration := minimumDuration s;
          startedAt := startedAt s;
          endsAt := Some newExpiresAt;
          expiresAt := Some newExpiresAt;
          isExtended := true;
          extensionCount := extensionCount s + 1;
          extensions := extensions s ++
            [Ext.mk now additionalHours additionalAmount reference newExpiresAt];
          lastMessageAt := lastMessageAt s;
          hasUnreadMessages := hasUnreadMessages s;
          messageCount := messageCount s;
          sessionToken := sessionToken s |}.

(** [session.status = st]. *)
Definition withStatus (st : SessionStatus) (s : Session) : Session :=
  {| _id := _id s; professionalId := professionalId s;
     clientId := clientId s; clientUsername := clientUsername s;
     paymentStatus := paymentStatus s; paymentAmount := paymentAmount s;
     paymentReference := paymentReference s;
     paymentMethod := paymentMethod s; paidAt := paidAt s;
     status := st;
     selectedDuration := selectedDuration s;
     currentDuration := currentDuration s;
     durationHours := durationHours s; pricePerHour := pricePerHour s;
     minimumDuration := minimumDuration s;
     startedAt := startedAt s; endsAt := endsAt s; expiresAt := expiresAt s;
     isExtended := isExtended s; extensionCount := extensionCount s;
     extensions := extensions s;
     lastMessageAt := lastMessageAt s;
     hasUnreadMessages := hasUnreadMessages s;
     messageCount := messageCount s;
     sessionToken := sessionToken s |}.

(** [expireOldSessions]: [updateMany({status: 'active', expiresAt: {$lt: now}},
    {$set: {status: 'expired'}})]; [$lt] does not match a document whose
    [expiresAt] is unset. *)
Definition sweepMatches (now : Z) (s : Session) : bool :=
  bool_decide (status s = active)
  && match expiresAt s with
     | Some e => bool_decide (e < now)
     | None => false
     end.

Definition expireOldSessions (now : Z) (m : gmap string Session)
    : gmap string Session :=
  (λ s, if sweepMatches now s then withStatus expired s else s) <$> m.

(** The bookkeeping the model methods keep: [endsAt] follows
    [expiresAt], the counter and the flag follow the [extensions] array,
    the amount paid is the hourly price for the duration paid for, and a
    started session expires [currentDuration] after its start. *)
Record coherent (s : Session) : Prop := mkCoherent {
  co_ends : endsAt s = expiresAt s;
  co_count : extensionCount s = Z.of_nat (length (extensions s));
  co_flag : isExtended s = true ↔ extensions s ≠ [];
  co_paid : paymentAmount s * HOUR_MS = pricePerHour s * currentDuration s;
  co_window : ∀ t, startedAt s = Some t →
                   expiresAt s = Some (t + currentDuration s);
}.

(** [result.modifiedCount], the value [expireOldSessions] returns: the
    number of documents the filter matches (each of them is modified,
    its status being ['active'] before). *)
Definition expiredCount (now : Z) (m : gmap string Session) : nat :=
  length (List.filter (λ kv, sweepMatches now kv.2) (map_to_list m)).

(** ** JavaScript strings *)

(** [s.split(sep)] for a one-character separator. *)
Fixpoint split (sep : Ascii.ascii) (s : string) : list string :=
  match s with
  | EmptyString => [""]
  | String c s' =>
      if Ascii.eqb c sep then "" :: split sep s'
      else match split sep s' with
           | [] => [String c ""]
           | w :: ws => String c w :: ws
           end
  end.

(** [s.replace(pat, rep)] for a string pattern: the first occurrence only. *)
Fixpoint replaceFirst (pat rep s : string) : string :=
  if String.prefix pat s then
    rep +:+ String.substring (String.length pat)
                             (String.length s - String.length pat)%nat s
  else match s with
       | EmptyString => EmptyString
       | String c s' => String c (replaceFirst pat rep s')
       end.

(** Truthiness of an optional string and of an optional number. *)
Definition truthyStr (o : option string) : bool :=
  match o with
  | Some s => bool_decide (s ≠ "")
  | None => false
  end.

Definition truthyNum (o : option Z) : bool :=
  match o with
  | Some n => bool_decide (n ≠ 0)
  | None => false
  end.

(** ** JSON web tokens (jsonwebtoken) *)

Module Jwt.
(** The time-span literals of [expiresIn]: ['25h'] is [MkSpan 25 Hours],
    ['7d'] is [MkSpan 7 Days]. *)
Inductive Unit := Hours | Days.
Inductive Span := MkSpan (n : Z) (u : Unit).

Definition seconds (sp : Span) : Z :=
  match sp with
  | MkSpan n Hours => n * 3600
  | MkSpan n Days => n * 86400
  end.

(** The claims of a signed token: the payload object, the issue instant
    and the expiry instant, both in seconds. *)
Record Claims := mkClaims {
  payload : list (string * string);
  iat : Z;
  exp : Z;
}.

(** [jwt.sign(payload, secret, {expiresIn})] at the instant [now] (ms):
    [iat = floor(now / 1000)] and [exp = iat + seconds]. *)
Definition claims (payload : list (string * string)) (expiresIn : Span)
    (now : Z) : Claims :=
  {| payload := payload;
     iat := now / 1000;
     exp := now / 1000 + seconds expiresIn |}.

(** The validity window of a token, in seconds. *)
Definition window (c : Claims) : Z := exp c - iat c.

Definition field (k : string) (c : Claims) : option string :=
  snd <$> List.find (λ kv, bool_decide (kv.1 = k)) (payload c).
End Jwt.

(** ** Collections *)

(** A consultation client (the [ConsultationClient] model of
    unnamed/part_014); only the fields the session engine reads or writes. *)
Module Client.
Record t := mk {
  username : string;
  totalSessions : Z;
  activeSessions : Z;
}.
End Client.

(** A chat message (the [Message] model of backend/src/models/User.model.ts). *)
Inductive SenderType := client | professional.
#[global] Instance SenderType_eq_dec : EqDecision SenderType.
Proof. solve_decision. Defined.

Module Message.
Inductive Kind := text | system.
Record t := mk {
  _id : string;
  sessionId : string;
  senderId : string;
  senderType : SenderType;
  content : string;
  messageType : Kind;
  isRead : bool;
  createdAt : Z;
}.
End Message.

(** A review (backend/src/models/Review.model.ts). *)
Module Review.
Record t := mk {
  professionalId : string;
  sessionId : string;
  clientName : string;
  rating : Z;
  comment : option string;
}.
End Review.

Record Db := mkDb {
  sessions : gmap string Session;
  clients : gmap string Client.t;
  messages : list Message.t;
  reviews : list Review.t;
}.

Definition findById (id : string) (db : Db) : option Session :=
  sessions db !! id.

(** The strings that are [ObjectId]s: 24 hexadecimal digits
    ([isValidObjectId] of backend/src/utils/validators.util.ts has the
    pattern). *)
Definition isHexDigit (c : Ascii.ascii) : bool :=
  let n := Ascii.nat_of_ascii c in
  ((48 <=? n) && (n <=? 57) || (65 <=? n) && (n <=? 70)
   || (97 <=? n) && (n <=? 102))%nat.

Fixpoint allHexDigits (s : string) : bool :=
  match s with
  | EmptyString => true
  | String c s' => isHexDigit c && allHexDigits s'
  end.

Definition isValidObjectId (id : string) : bool :=
  bool_decide (String.length id = 24%nat) && allHexDigits id.

(** [Model.findById(id)] with an id taken from a request.  Mongoose casts
    the string to an [ObjectId] before it queries, and throws a
    [CastError] for a string that is not one.  The documents are stored
    under [ObjectId]s, so such a string has no document: the throw stands
    where the lookup finds nothing. *)
Definition findByIdParam (id : string) (db : Db) : Except (option Session) :=
  match findById id db with
  | Some session => Ok (Some session)
  | None =>
      if isValidObjectId id then Ok None else Throw "Cast to ObjectId failed"
  end.

(** [Model.findOne(filter)]: the first document that matches. *)
Definition findOne (P : Session → bool) (db : Db) : option Session :=
  snd <$> List.find (λ kv, P kv.2) (map_to_list (sessions db)).

(** [session.save()] of a document that is already stored. *)
Definition saveSession (s : Session) (db : Db) : Db :=
  {| sessions := <[_id s := s]> (sessions db);
     clients := clients db; messages := messages db; reviews := reviews db |}.

(** [session.save()] of a new document: the unique indexes on
    [paymentReference] and [sessionToken] refuse a duplicate. *)
Definition insertSession (s : Session) (db : Db) : Except Db :=
  match findOne (λ s', bool_decide (paymentReference s' = paymentReference s)
                       || bool_decide (sessionToken s' = sessionToken s)) db with
  | Some _ => Throw "E11000 duplicate key error"
  | None => Ok (saveSession s db)
  end.

Definition deleteSession (id : string) (db : Db) : Db :=
  {| sessions := delete id (sessions db);
     clients := clients db; messages := messages db; reviews := reviews db |}.

(** [ConsultationClient.findByIdAndUpdate(id, {$inc: {totalSessions: dt,
    activeSessions: da}})]; nothing happens when the client is absent. *)
Definition incClient (id : string) (dt da : Z) (db : Db) : Db :=
  {| sessions := sessions db;
     clients := alter (λ c, Client.mk (Client.username c)
                                      (Client.totalSessions c + dt)
                                      (Client.activeSessions c + da))
                      id (clients db);
     messages := messages db; reviews := reviews db |}.

(** What the database guarantees of the [sessions] collection: a
    document is stored under its own [_id], and the unique indexes keep
    [paymentReference] and [sessionToken] apart. *)
Record wellFormed (db : Db) : Prop := mkWellFormed {
  wf_keyed : ∀ k s, sessions db !! k = Some s → _id s = k;
  wf_references : ∀ k1 k2 s1 s2,
    sessions db !! k1 = Some s1 → sessions db !! k2 = Some s2 →
    paymentReference s1 = paymentReference s2 → k1 = k2;
  wf_tokens : ∀ k1 k2 s1 s2,
    sessions db !! k1 = Some s1 → sessions db !! k2 = Some s2 →
    sessionToken s1 = sessionToken s2 → k1 = k2;
}.

(** A string with no ['_'] in it, as the hexadecimal [ObjectId]s are. *)
Fixpoint noUnderscore (s : string) : bool :=
  match s with
  | EmptyString => true
  | String c s' => negb (Ascii.eqb c "_") && noUnderscore s'
  end.

(** ** The payment controller

    The consultation payment controller, third document of
    backend/src/controllers/upload.controller.ts. *)

Definition DEFAULT_PRICE_PER_HOUR : Z := 5000.
Definition MINIMUM_HOURS : Z := 1.
Definition MAXIMUM_HOURS : Z := 8.

(** [res.status(code).json({success, message, data})]. *)
Record Reply (D : Type) := mkReply {
  code : Z;
  success : bool;
  message : string;
  error : option string;
  data : option D;
}.
Arguments mkReply {D} code success message error data.
Arguments code {D} r.
Arguments success {D} r.
Arguments message {D} r.
Arguments error {D} r.
Arguments data {D} r.

Definition failure {D} (c : Z) (msg : string) : Reply D :=
  mkReply c false msg None None.

Definition answer {D} (msg : string) (d : D) : Reply D :=
  mkReply 200 true msg None (Some d).

(** The [catch] block of every handler of this controller. *)
Definition serverError {D} (err : string) : Reply D :=
  mkReply 500 false "Internal server error" (Some err) None.

Record InitBody := mkInitBody {
  b_professionalId : option string;
  b_clientId : option string;
  b_durationHours : option Z;
  b_email : option string;
}.

Record InitData := mkInitData {
  i_sessionId : string;
  i_reference : string;
  i_sessionToken : string;
  i_durationHours : Z;
  i_clientUsername : string;
}.

(** The 7-day token minted at booking. *)
Definition bookingTokenClaims (clientId username professionalId : string)
    (now : Z) : Jwt.Claims :=
  Jwt.claims [("clientId", clientId); ("username", username);
              ("professionalId", professionalId);
              ("type", "consultation_session")]
             (Jwt.MkSpan 7 Jwt.Days) now.

(** The session document built by [initializeConsultationPayment]. *)
Definition newSession (oid professionalId clientId username reference token : string)
    (durationHours : Z) : Session :=
  let pricePerHour := DEFAULT_PRICE_PER_HOUR in
  let totalAmount := pricePerHour * durationHours in
  let durationMs := durationHours * 3600000 in
  {| _id := oid; professionalId := professionalId;
     clientId := clientId; clientUsername := username;
     paymentStatus := PayPending; paymentAmount := totalAmount;
     paymentReference := reference;
     paymentMethod := Paystack; paidAt := None;
     status := pending;
     selectedDuration := durationMs; currentDuration := durationMs;
     durationHours := durationHours; pricePerHour := pricePerHour;
     minimumDuration := 3600000;
     startedAt := None; endsAt := None; expiresAt := None;
     isExtended := false; extensionCount := 0; extensions := [];
     lastMessageAt := None; hasUnreadMessages := false; messageCount := 0;
     sessionToken := token |}.

Section Booking.
(** The serialisation and signature of a token ([jwt.sign]). *)
Variable sign : Jwt.Claims → string.

(** [POST /api/consultation/payment/initialize].  [oid] is the fresh
    [ObjectId] of the new document, [uuid] the fresh [uuidv4()], and
    [paystack] the outcome of the gateway call: a thrown network error, or
    the [status] flag of its answer. *)
Definition initializeConsultationPayment (body : InitBody)
    (oid uuid : string) (paystack : Except bool) (now : Z) (db : Db)
    : Db * Reply InitData :=
  match b_professionalId body, b_clientId body, b_durationHours body with
  | Some professionalId, Some clientId, Some durationHours =>
      if negb (truthyStr (Some professionalId))
         || negb (truthyStr (Some clientId))
         || negb (truthyNum (Some durationHours)) then
        (db, failure 400 "Professional ID, client ID, and duration are required")
      else if bool_decide (durationHours < MINIMUM_HOURS) then
        (db, failure 400 "Minimum consultation duration is 1 hour")
      else if bool_decide (durationHours > MAXIMUM_HOURS) then
        (db, failure 400 "Maximum consultation duration is 8 hours")
      else
        match clients db !! clientId with
        | None => (db, failure 404 "Client not found")
        | Some c =>
            let reference := "CONSULT_" +:+ uuid in
            let sessionToken :=
              sign (bookingTokenClaims clientId (Client.username c)
                                       professionalId now) in
            let session :=
              newSession oid professionalId clientId (Client.username c)
                         reference sessionToken durationHours in
            match insertSession session db with
            | Throw e => (db, serverError e)
            | Ok db1 =>
                match paystack with
                | Throw e => (db1, serverError e)
                | Ok false =>
                    (deleteSession oid db1,
                     failure 400 "Failed to initialize payment")
                | Ok true =>
                    (db1, answer "Payment initialized successfully"
                      (mkInitData oid reference sessionToken
                                  durationHours (Client.username c)))
                end
            end
        end
  | _, _, _ =>
      (db, failure 400 "Professional ID, client ID, and duration are required")
  end.
End Booking.

Record ExtendBody := mkExtendBody {
  e_sessionId : option string;
  e_additionalHours : option Z;
  e_email : option string;
}.

(** [extensionCost] is what the reply shows: the cost in naira,
    [extensionCost / 100] of the kobo amount sent to the gateway. *)
Record ExtendData := mkExtendData {
  x_reference : string;
  x_extensionCost : Q;
  x_additionalHours : Z;
  x_currentExpiresAt : option Z;
}.

(** [POST /api/consultation/payment/extend]: the extension is only
    priced and handed to the gateway here; the store is not written. *)
Definition initializeSessionExtension (body : ExtendBody) (uuid : string)
    (paystack : Except bool) (now : Z) (db : Db) : Reply ExtendData :=
  match e_sessionId body, e_additionalHours body with
  | Some sessionId, Some additionalHours =>
      if negb (truthyStr (Some sessionId))
         || negb (truthyNum (Some additionalHours)) then
        failure 400 "Session ID and additional hours are required"
      else if bool_decide (additionalHours < 1) then
        failure 400 "Extension must be at least 1 hour"
      else
        match findByIdParam sessionId db with
        | Throw e => serverError e
        | Ok None => failure 404 "Session not found"
        | Ok (Some session) =>
            if bool_decide (status session ≠ active) then
              failure 400 "Only active sessions can be extended"
            else if isExpired now session then
              failure 400
                "Cannot extend expired session. Please start a new consultation."
            else
              let extensionCost := calculateExtensionCost session additionalHours in
              let reference := "EXTEND_" +:+ sessionId +:+ "_" +:+ uuid in
              match paystack with
              | Throw e => serverError e
              | Ok false => failure 400 "Failed to initialize extension payment"
              | Ok true =>
                  answer "Extension payment initialized"
                         (mkExtendData reference (inject_Z extensionCost / 100)
                                       additionalHours (expiresAt session))
              end
        end
  | _, _ => failure 400 "Session ID and additional hours are required"
  end.

(** The answer of [GET https://api.paystack.co/transaction/verify/:reference]. *)
Inductive ChargeStatus := ChargeSuccess | ChargeFailed.
#[global] Instance ChargeStatus_eq_dec : EqDecision ChargeStatus.
Proof. solve_decision. Defined.

Record PaystackVerify := mkPaystackVerify {
  pv_status : bool;
  pv_dataStatus : ChargeStatus;
  pv_paidAt : Z;
  pv_additionalHours : option Z;
}.

(** [metadata.metadata?.additionalHours || 1]. *)
Definition verifiedHours (pv : PaystackVerify) : Z :=
  match pv_additionalHours pv with
  | Some h => if bool_decide (h = 0) then 1 else h
  | None => 1
  end.

(** The [data] of the three 200 answers of the verification: the fields
    of the session they report. *)
Record VerifyData := mkVerifyData {
  v_sessionId : string;
  v_sessionToken : string;
  v_status : SessionStatus;
  v_startedAt : option Z;
  v_expiresAt : option Z;
  v_remainingTime : Z;
  v_extensionCount : Z;
}.

Definition verifyData (now : Z) (s : Session) : VerifyData :=
  mkVerifyData (_id s) (sessionToken s) (status s) (startedAt s) (expiresAt s)
               (getRemainingTime now s) (extensionCount s).

(** [session.paymentStatus = 'completed'; session.paidAt = paid_at]. *)
Definition markPaid (paidAt' : Z) (s : Session) : Session :=
  {| _id := _id s; professionalId := professionalId s;
     clientId := clientId s; clientUsername := clientUsername s;
     paymentStatus := PayCompleted; paymentAmount := paymentAmount s;
     paymentReference := paymentReference s;
     paymentMethod := paymentMethod s; paidAt := Some paidAt';
     status := status s;
     selectedDuration := selectedDuration s;
     currentDuration := currentDuration s;
     durationHours := durationHours s; pricePerHour := pricePerHour s;
     minimumDuration := minimumDuration s;
     startedAt := startedAt s; endsAt := endsAt s; expiresAt := expiresAt s;
     isExtended := isExtended s; extensionCount := extensionCount s;
     extensions := extensions s;
     lastMessageAt := lastMessageAt s;
     hasUnreadMessages := hasUnreadMessages s;
     messageCount := messageCount s;
     sessionToken := sessionToken s |}.

(** The session a reference designates: the second ['_']-separated piece
    of an ['EXTEND_...'] reference is a session id; any other reference is
    looked up as the original charge of a session. *)
Definition isExtensionReference (reference : string) : bool :=
  String.prefix "EXTEND_" reference.

Definition sessionOfReference (reference : string) (db : Db) : option Session :=
  if isExtensionReference reference then
    match split "_"%char reference with
    | _ :: sessionId :: _ => findById sessionId db
    | _ => None
    end
  else findOne (λ s, bool_decide (paymentReference s = reference)) db.

(** [GET /api/consultation/payment/verify/:reference].  [paystack] is the
    outcome of the gateway's verification call. *)
Definition verifyConsultationPayment (reference : string)
    (paystack : Except PaystackVerify) (now : Z) (db : Db)
    : Db * Reply VerifyData :=
  if bool_decide (reference = "") then
    (db, failure 400 "Payment reference is required")
  else
    match sessionOfReference reference db with
    | None => (db, failure 404 "Session not found")
    | Some session =>
        match paystack with
        | Throw e => (db, serverError e)
        | Ok pv =>
            if negb (pv_status pv)
               || negb (bool_decide (pv_dataStatus pv = ChargeSuccess)) then
              (db, failure 400 "Payment verification failed")
            else if isExtensionReference reference then
              match extendSession now (verifiedHours pv) reference session with
              | Throw e => (db, serverError e)
              | Ok session' =>
                  (saveSession session' db,
                   answer "Session extended successfully" (verifyData now session'))
              end
            else if bool_decide (paymentStatus session = PayCompleted) then
              (db, answer "Payment already verified" (verifyData now session))
            else
              match startSession now (markPaid (pv_paidAt pv) session) with
              | Throw e => (db, serverError e)
              | Ok session' =>
                  (incClient (clientId session') 1 1 (saveSession session' db),
                   answer "Payment verified and session activated"
                          (verifyData now session'))
              end
        end
    end.

(** The [data] of the status answer: the fields that follow the state of
    the session. *)
Record StatusData := mkStatusData {
  q_status : SessionStatus;
  q_paymentStatus : PaymentStatus;
  q_startedAt : option Z;
  q_expiresAt : option Z;
  q_remainingTime : Z;
  q_isActive : bool;
  q_messageCount : Z;
  q_isExtended : bool;
  q_extensionCount : Z;
}.

Definition statusData (now : Z) (s : Session) : StatusData :=
  mkStatusData (status s) (paymentStatus s) (startedAt s) (expiresAt s)
               (getRemainingTime now s) (isActive now s) (messageCount s)
               (isExtended s) (extensionCount s).

(** [req.headers.authorization?.replace('Bearer ', '')]. *)
Definition bearerToken (authorization : option string) : option string :=
  replaceFirst "Bearer " "" <$> authorization.

(** [GET /api/consultation/payment/session/:sessionId]. *)
Definition getSessionStatus (sessionId : string) (authorization : option string)
    (now : Z) (db : Db) : Db * Reply StatusData :=
  if negb (truthyStr (bearerToken authorization)) then
    (db, failure 401 "Session token required")
  else
    match findByIdParam sessionId db with
    | Throw e => (db, serverError e)
    | Ok None => (db, failure 404 "Session not found")
    | Ok (Some session) =>
        if bool_decide (Some (sessionToken session) ≠ bearerToken authorization) then
          (db, failure 403 "Invalid session token")
        else if isExpired now session && bool_decide (status session = active) then
          let session' := withStatus expired session in
          (incClient (clientId session') 0 (-1) (saveSession session' db),
           answer "" (statusData now session'))
        else
          (db, answer "" (statusData now session))
    end.

(** ** The client token utilities (backend/src/utils/consultationUtils.ts) *)

Section ClientTokens.
(** [jwt.sign] and the signature check of [jwt.verify]: the claims a
    token string carries when its signature is genuine. *)
Variable sign : Jwt.Claims → string.
Variable unsign : string → option Jwt.Claims.

(** [generateClientSessionToken]: ['25h']. *)
Definition clientTokenClaims (sessionId clientAnonymousId : string)
    (now : Z) : Jwt.Claims :=
  Jwt.claims [("sessionId", sessionId);
              ("clientAnonymousId", clientAnonymousId);
              ("type", "client_session")]
             (Jwt.MkSpan 25 Jwt.Hours) now.

Definition generateClientSessionToken (sessionId clientAnonymousId : string)
    (now : Z) : string :=
  sign (clientTokenClaims sessionId clientAnonymousId now).

(** [jwt.verify]: a genuine signature and an expiry still ahead. *)
Definition jwtVerify (now : Z) (token : string) : option Jwt.Claims :=
  c ← unsign token;
  if bool_decide (now / 1000 >= Jwt.exp c) then None else Some c.

(** [verifyClientSessionToken]: [null] for a bad token or a token of
    another type, otherwise the two fields of the payload. *)
Definition verifyClientSessionToken (now : Z) (token : string)
    : option (option string * option string) :=
  c ← jwtVerify now token;
  if bool_decide (Jwt.field "type" c ≠ Some "client_session") then None
  else Some (Jwt.field "sessionId" c, Jwt.field "clientAnonymousId" c).
End ClientTokens.

(** ** The Socket.IO relays *)

(** [socket.data]. *)
Record SocketData := mkSocketData {
  d_userType : option SenderType;
  d_sessionId : option string;
  d_clientAnonymousId : option string;
  d_professionalId : option string;
}.

(** The rooms of the Socket.IO server (room name to the ids of the
    sockets joined to it) and the data of each connected socket. *)
Record Server := mkServer {
  rooms : gmap string (gset string);
  socketData : gmap string SocketData;
}.

Definition members (room : string) (srv : Server) : gset string :=
  default ∅ (rooms srv !! room).

(** [socket.join(room)]. *)
Definition join (sk room : string) (srv : Server) : Server :=
  {| rooms := <[room := {[sk]} ∪ members room srv]> (rooms srv);
     socketData := socketData srv |}.

Definition setData (sk : string) (d : SocketData) (srv : Server) : Server :=
  {| rooms := rooms srv; socketData := <[sk := d]> (socketData srv) |}.

Definition dataOf (sk : string) (srv : Server) : SocketData :=
  default (mkSocketData None None None None) (socketData srv !! sk).

(** The payload of ['message:send'] / ['message:received']. *)
Record MessageData := mkMessageData {
  md_id : Z;
  md_sessionId : string;
  md_message : string;
  md_senderType : SenderType;
  md_timestamp : Z;
}.

Inductive Event :=
| ConsultationError (message : string)
| ConsultationMessage (m : Message.t)
| ErrorEvent (message : string)
| MessageReceived (d : MessageData)
| JoinedConsultation (sessionId professionalId : string) (endsAt : option Z).

(** What a handler does, in the order in which it does it: the writes to
    the store and the events it emits, each with its recipients. *)
Inductive Effect :=
| SaveMessage (m : Message.t)
| SaveSession (s : Session)
| AddMessage (d : MessageData)
| Emit (to : gset string) (ev : Event).

(** The events that carry a chat message to the room. *)
Definition isChat (ev : Event) : bool :=
  match ev with
  | ConsultationMessage _ | MessageReceived _ => true
  | _ => false
  end.

(** [io.to(room).emit(...)]: every socket joined to the room. *)
Definition ioTo (room : string) (srv : Server) : gset string :=
  members room srv.

(** [socket.to(room).emit(...)]: the room without the emitting socket. *)
Definition socketTo (sk room : string) (srv : Server) : gset string :=
  members room srv ∖ {[sk]}.

(** [socket.emit(...)]: the socket itself. *)
Definition socketEmit (sk : string) (ev : Event) : Effect := Emit {[sk]} ev.

Definition consultationRoom (sessionId : string) : string :=
  "consultation:" +:+ sessionId.

Record Handshake := mkHandshake {
  h_userId : option string;
  h_sessionToken : option string;
  h_professionalId : option string;
}.

(** [content.trim()]. *)
Fixpoint trimStart (s : string) : string :=
  match s with
  | String c s' => if Ascii.is_space c then trimStart s' else s
  | EmptyString => EmptyString
  end.

Definition trim (s : string) : string :=
  String.rev (trimStart (String.rev (trimStart s))).

Definition saveMessage (m : Message.t) (db : Db) : Db :=
  {| sessions := sessions db; clients := clients db;
     messages := messages db ++ [m]; reviews := reviews db |}.

(** [24 * 60 * 60 * 1000]: the fixed window of the first-message
    activation. *)
Definition DAY_MS : Z := 24 * 60 * 60 * 1000.

(** The session update of the ['consultation:message'] handler: the last
    message instant, the unread flag for a client message, and the
    activation of a pending session with its 24-hour [endsAt]. *)
Definition touchByMessage (now : Z) (senderType : SenderType) (s : Session)
    : Session :=
  let wasPending := bool_decide (status s = pending) in
  {| _id := _id s; professionalId := professionalId s;
     clientId := clientId s; clientUsername := clientUsername s;
     paymentStatus := paymentStatus s; paymentAmount := paymentAmount s;
     paymentReference := paymentReference s;
     paymentMethod := paymentMethod s; paidAt := paidAt s;
     status := if wasPending then active else status s;
     selectedDuration := selectedDuration s;
     currentDuration := currentDuration s;
     durationHours := durationHours s; pricePerHour := pricePerHour s;
     minimumDuration := minimumDuration s;
     startedAt := if wasPending then Some now else startedAt s;
     endsAt := if wasPending then Some (now + DAY_MS) else endsAt s;
     expiresAt := expiresAt s;
     isExtended := isExtended s; extensionCount := extensionCount s;
     extensions := extensions s;
     lastMessageAt := Some now;
     hasUnreadMessages :=
       if bool_decide (senderType = client) then true else hasUnreadMessages s;
     messageCount := messageCount s;
     sessionToken := sessionToken s |}.

(** The activation of the ['join:consultation'] handler. *)
Definition activateOnJoin (now : Z) (s : Session) : Session :=
  {| _id := _id s; professionalId := professionalId s;
     clientId := clientId s; clientUsername := clientUsername s;
     paymentStatus := paymentStatus s; paymentAmount := paymentAmount s;
     paymentReference := paymentReference s;
     paymentMethod := paymentMethod s; paidAt := paidAt s;
     status := active;
     selectedDuration := selectedDuration s;
     currentDuration := currentDuration s;
     durationHours := durationHours s; pricePerHour := pricePerHour s;
     minimumDuration := minimumDuration s;
     startedAt := Some now;
     endsAt := endsAt s;
     expiresAt := Some (now + currentDuration s);
     isExtended := isExtended s; extensionCount := extensionCount s;
     extensions := extensions s;
     lastMessageAt := lastMessageAt s;
     hasUnreadMessages := hasUnreadMessages s;
     messageCount := messageCount s;
     sessionToken := sessionToken s |}.

(** *** The socket server (third document of backend/scripts/sync-professionals.ts) *)

Section SocketServer.
Variable unsign : string → option Jwt.Claims.

(** [io.on('connection', socket => ...)]: the rooms a socket joins from
    its handshake.  A client joins the room of the session its token
    names; a professional joins [professional:<id>] only. *)
Definition onConnection (sk : string) (auth : Handshake) (now : Z)
    (srv : Server) : Server :=
  let srv1 :=
    if truthyStr (h_userId auth)
    then join sk ("user:" +:+ default "" (h_userId auth)) srv
    else srv in
  if truthyStr (h_sessionToken auth) then
    match verifyClientSessionToken unsign now
                                   (default "" (h_sessionToken auth)) with
    | Some (sessionId, anon) =>
        join sk (consultationRoom (default "undefined" sessionId))
             (setData sk (mkSocketData (Some client) sessionId anon
                                       (d_professionalId (dataOf sk srv1)))
                      srv1)
    | None => srv1
    end
  else if truthyStr (h_professionalId auth) then
    join sk ("professional:" +:+ default "" (h_professionalId auth))
         (setData sk (mkSocketData (Some professional)
                                   (d_sessionId (dataOf sk srv1))
                                   (d_clientAnonymousId (dataOf sk srv1))
                                   (h_professionalId auth))
                  srv1)
  else srv1.
End SocketServer.

(** The sender a socket is allowed to be for a session: its anonymous id
    for the client bound to that very session, ['professional'] for the
    professional the session belongs to. *)
Definition senderOf (d : SocketData) (sessionId : string) (s : Session)
    : option (option string * SenderType) :=
  match d_userType d with
  | Some client =>
      if bool_decide (d_sessionId d ≠ Some sessionId) then None
      else Some (d_clientAnonymousId d, client)
  | Some professional =>
      if bool_decide (Some (professionalId s) ≠ d_professionalId d) then None
      else Some (Some "professional", professional)
  | None => None
  end.

(** [socket.on('consultation:message', ...)].  [mid] is the [_id] of the
    new message document.  A message without a sender id does not pass
    the validation of [message.save()]; the [catch] block answers
    "Failed to send message". *)
Definition consultationMessage (sk : string) (sessionId : string)
    (content : option string) (mid : string) (now : Z)
    (srv : Server) (db : Db) : Db * list Effect :=
  match content with
  | None => (db, [socketEmit sk (ConsultationError "Invalid message content")])
  | Some content =>
      if negb (truthyStr (Some content))
         || bool_decide (String.length (trim content) = 0%nat)
         || bool_decide (2000 < String.length content)%nat then
        (db, [socketEmit sk (ConsultationError "Invalid message content")])
      else
        match findById sessionId db with
        | None => (db, [socketEmit sk (ConsultationError "Session not found")])
        | Some session =>
            if bool_decide (status session ≠ active)
               && bool_decide (status session ≠ pending) then
              (db, [socketEmit sk (ConsultationError "Session is not active")])
            else if match endsAt session with
                    | Some e => bool_decide (now > e)
                    | None => false
                    end then
              (db, [socketEmit sk (ConsultationError "Session has expired")])
            else
              match senderOf (dataOf sk srv) sessionId session with
              | None => (db, [socketEmit sk (ConsultationError "Unauthorized")])
              | Some (senderId, senderType) =>
                  if negb (truthyStr senderId) then
                    (db, [socketEmit sk (ConsultationError "Failed to send message")])
                  else
                    let message :=
                      Message.mk mid (_id session) (default "" senderId)
                                 senderType (trim content) Message.text false
                                 now in
                    let session' := touchByMessage now senderType session in
                    (saveSession session' (saveMessage message db),
                     [SaveMessage message; SaveSession session';
                      Emit (ioTo (consultationRoom sessionId) srv)
                           (ConsultationMessage message)])
              end
        end
  end.

(** *** The WebSocket service (second document of unnamed/part_015) *)

(** [socket.on('join:consultation', ...)]. *)
Definition joinConsultation (sk : string) (sessionToken' : string) (now : Z)
    (srv : Server) (db : Db) : Db * Server * list Effect :=
  match findOne (λ s, bool_decide (sessionToken s = sessionToken')) db with
  | None => (db, srv, [socketEmit sk (ErrorEvent "Invalid session token")])
  | Some session =>
      if isExpired now session then
        (db, srv, [socketEmit sk (ErrorEvent "Session has expired")])
      else
        if bool_decide (status session = pending) then
          let session' := activateOnJoin now session in
          (saveSession session' db,
           join sk (consultationRoom (_id session')) srv,
           [SaveSession session';
            socketEmit sk (JoinedConsultation (_id session')
                                              (professionalId session')
                                              (endsAt session'))])
        else
          (db, join sk (consultationRoom (_id session)) srv,
           [socketEmit sk (JoinedConsultation (_id session)
                                              (professionalId session)
                                              (endsAt session))])
  end.

Section MessageSend.
(** [session.addMessage(messageData)]: the flexible-duration model
    declares the method in its interface and leaves its body out; it is
    a parameter here, a store update that may throw. *)
Variable addMessage : MessageData → Session → Db → Except Db.

(** [socket.on('message:send', ...)]. *)
Definition messageSend (sk : string) (sessionToken' message : string)
    (senderType : SenderType) (now : Z) (srv : Server) (db : Db)
    : Db * list Effect :=
  match findOne (λ s, bool_decide (sessionToken s = sessionToken')) db with
  | None => (db, [socketEmit sk (ErrorEvent "Invalid session")])
  | Some session =>
      if isExpired now session then
        (db, [socketEmit sk (ErrorEvent "Session has expired")])
      else
        let messageData :=
          mkMessageData now (_id session) message senderType now in
        match addMessage messageData session db with
        | Throw e => (db, [socketEmit sk (ErrorEvent e)])
        | Ok db' =>
            (db', [AddMessage messageData;
                   Emit (ioTo (consultationRoom (_id session)) srv)
                        (MessageReceived messageData)])
        end
  end.
End MessageSend.

(** *** Signalling, typing and leaving *)

(** [socket.leave(room)]. *)
Definition leave (sk room : string) (srv : Server) : Server :=
  {| rooms := alter (λ m, m ∖ {[sk]}) room (rooms srv);
     socketData := socketData srv |}.

Inductive SignalType := Offer | Answer | IceCandidate.

(** The events of the signalling handlers; the payload [signal] is
    forwarded as it came. *)
Inductive Forwarded :=
| CallSignal (signal : string) (type : SignalType)
| TypingStart
| TypingStop
| ConsultationSignal (signal : string) (from : option SenderType)
| SignalError (message : string).

(** [socket.on('call:signal', ...)] of the WebSocket service: the session
    is looked up by its token and the signal goes to the rest of its
    room; neither the status nor the expiry is looked at. *)
Definition callSignal (sk sessionToken' signal : string) (type : SignalType)
    (srv : Server) (db : Db) : list (gset string * Forwarded) :=
  match findOne (λ s, bool_decide (sessionToken s = sessionToken')) db with
  | None => [({[sk]}, SignalError "Invalid session")]
  | Some session =>
      [(socketTo sk (consultationRoom (_id session)) srv, CallSignal signal type)]
  end.

(** [socket.on('typing:start', ...)] and [socket.on('typing:stop', ...)]. *)
Definition typing (ev : Forwarded) (sk sessionToken' : string)
    (srv : Server) (db : Db) : list (gset string * Forwarded) :=
  match findOne (λ s, bool_decide (sessionToken s = sessionToken')) db with
  | None => []
  | Some session => [(socketTo sk (consultationRoom (_id session)) srv, ev)]
  end.

Definition typingStart := typing TypingStart.
Definition typingStop := typing TypingStop.

(** [socket.on('leave:consultation', ...)]. *)
Definition leaveConsultation (sk sessionToken' : string)
    (srv : Server) (db : Db) : Server :=
  match findOne (λ s, bool_decide (sessionToken s = sessionToken')) db with
  | None => srv
  | Some session => leave sk (consultationRoom (_id session)) srv
  end.

(** [socket.on('consultation:signal', ...)] of the socket server: silent
    unless the session exists, is ['active'] and the socket is the client
    bound to it or the professional it belongs to. *)
Definition consultationSignal (sk sessionId signal : string)
    (srv : Server) (db : Db) : list (gset string * Forwarded) :=
  match findById sessionId db with
  | None => []
  | Some session =>
      if bool_decide (status session ≠ active) then []
      else
        let d := dataOf sk srv in
        let authorized :=
          (bool_decide (d_userType d = Some client)
           && bool_decide (d_sessionId d = Some sessionId))
          || (bool_decide (d_userType d = Some professional)
              && bool_decide (Some (professionalId session) = d_professionalId d)) in
        if negb authorized then []
        else [(socketTo sk (consultationRoom sessionId) srv,
               ConsultationSignal signal (d_userType d))]
  end.

(** ** The review gate (the professional controller, unnamed/part_016) *)

Record ReviewBody := mkReviewBody {
  r_sessionId : option string;
  r_sessionToken : option string;
  r_clientName : option string;
  r_rating : option Z;
  r_comment : option string;
}.

(** [sendError] and [sendSuccess] of the response utilities
    (unnamed/part_007). *)
Definition sendError {D} (err : string) (c : Z) : Reply D :=
  mkReply c false "" (Some err) None.

Definition sendSuccess {D} (d : D) (msg : string) : Reply D :=
  mkReply 200 true msg None (Some d).

(** The zod schema of the request body. *)
Definition minLength (n : nat) (o : option string) : bool :=
  match o with
  | Some s => bool_decide (n ≤ String.length s)%nat
  | None => false
  end.

Definition reviewSchema (b : ReviewBody) : bool :=
  minLength 1 (r_sessionId b)
  && minLength 1 (r_sessionToken b)
  && minLength 2 (r_clientName b)
  && match r_rating b with
     | Some r => bool_decide (1 ≤ r ≤ 5)
     | None => false
     end
  && match r_comment b with
     | Some c => bool_decide (String.length c ≤ 1000)%nat
     | None => true
     end.

Definition createReview (r : Review.t) (db : Db) : Db :=
  {| sessions := sessions db; clients := clients db;
     messages := messages db; reviews := reviews db ++ [r] |}.

Definition findReview (sessionId : string) (db : Db) : option Review.t :=
  List.find (λ r, bool_decide (Review.sessionId r = sessionId)) (reviews db).

(** [POST /api/professionals/:id/review].  The running average kept on
    the professional's profile ([updateRating], floating point) touches
    neither the sessions nor the reviews and is left out. *)
Definition submitReview (professionalId' : string) (body : ReviewBody)
    (db : Db) : Db * Reply Review.t :=
  if negb (reviewSchema body) then (db, sendError "Validation failed" 400)
  else
    match r_sessionId body, r_sessionToken body, r_clientName body,
          r_rating body with
    | Some sessionId, Some token, Some clientName, Some rating =>
        match findOne (λ s, bool_decide (_id s = sessionId)
                            && bool_decide (sessionToken s = token)
                            && bool_decide (professionalId s = professionalId'))
                      db with
        | None => (db, sendError "Invalid session" 400)
        | Some session =>
            if bool_decide (status session ≠ expired) then
              (db, sendError "You can only review after the session has ended" 400)
            else
              match findReview sessionId db with
              | Some _ =>
                  (db, sendError "You have already reviewed this session" 400)
              | None =>
                  let review :=
                    Review.mk professionalId' sessionId clientName rating
                              (r_comment body) in
                  (createReview review db,
                   sendSuccess review "Review submitted successfully")
              end
        end
    | _, _, _, _ => (db, sendError "Validation failed" 400)
    end.

(** ** A worked booking

    One client, one professional, one booked hour: the states the
    scenarios below start from. *)

Definition demoSign (c : Jwt.Claims) : string :=
  "jwt." +:+ default "" (Jwt.field "username" c).

Definition demoUnsign (token : string) : option Jwt.Claims :=
  if bool_decide (token = "jwt.anon") then
    Some (clientTokenClaims "s1" "ANON-7Q2KXA" 0)
  else None.

(** The signer whose tokens [demoUnsign] recognises. *)
Definition anonSign (c : Jwt.Claims) : string := "jwt.anon".

Definition ada : Client.t := Client.mk "ada" 0 0.

Definition dbEmpty : Db := mkDb ∅ {["c1" := ada]} [] [].

Definition oneHour : InitBody :=
  mkInitBody (Some "p1") (Some "c1") (Some 1) None.

(** The booking of one hour at the instant 1000: session ["s1"], pending,
    reference ["CONSULT_u1"], token ["jwt.ada"]. *)
Definition dbBooked : Db :=
  (initializeConsultationPayment demoSign oneHour "s1" "u1" (Ok true) 1000 dbEmpty).1.

Definition paidOneHour : PaystackVerify :=
  mkPaystackVerify true ChargeSuccess 1500 (Some 1).

(** The payment verified at the instant 2000: active until 3602000. *)
Definition dbActive : Db :=
  (verifyConsultationPayment "CONSULT_u1" (Ok paidOneHour) 2000 dbBooked).1.

(** The session ["s1"] as a store of the worked booking holds it. *)
Definition sessionOf (db : Db) : Session :=
  default (newSession "" "" "" "" "" "" 0) (findById "s1" db).

Definition noServer : Server := mkServer ∅ ∅.

(** The professional ["p1"] connected to the socket server on socket ["skP"]. *)
Definition srvProfessional : Server :=
  onConnection demoUnsign "skP" (mkHandshake None None (Some "p1")) 1500 noServer.

(** The client of session ["s1"] connected to the socket server on socket ["skC"]. *)
Definition srvClient : Server :=
  onConnection demoUnsign "skC" (mkHandshake None (Some "jwt.anon") None) 1500 noServer.

(** The booked, unpaid session joined over ['join:consultation'] at the
    instant 2000. *)
Definition dbJoined : Db :=
  (joinConsultation "skJ" "jwt.ada" 2000 noServer dbBooked).1.1.


(** The same booking and verification with the session under an
    [ObjectId]. *)
Definition dbActiveOid : Db :=
  (verifyConsultationPayment "CONSULT_u1" (Ok paidOneHour) 2000
     (initializeConsultationPayment demoSign oneHour
        "64b7f0c2a1d3e4f5a6b7c8d9" "u1" (Ok true) 1000 dbEmpty).1).1.



(** * Properties *)

(** ** The model methods *)

Lemma isExpired_true now s :
  isExpired now s = true ↔ ∃ e, expiresAt s = Some e ∧ e < now.
Proof.
  unfold isExpired. destruct (expiresAt s) as [e|].
  - rewrite bool_decide_eq_true. split.
    + intros H. exists e. split; [done | lia].
    + intros (e' & [= <-] & H). lia.
  - split; [done | by intros (e' & ? & _)].
Qed.

Lemma isExpired_false now s :
  isExpired now s = false ↔ ∀ e, expiresAt s = Some e → now ≤ e.
Proof.
  unfold isExpired. destruct (expiresAt s) as [e|].
  - rewrite bool_decide_eq_false. split.
    + intros H e' [= <-]. lia.
    + intros H. specialize (H e eq_refl). lia.
  - split; [by intros _ e' | done].
Qed.

Lemma startSession_paid now s :
  paymentStatus s = PayCompleted →
  ∃ s', startSession now s = Ok s'
        ∧ status s' = active
        ∧ startedAt s' = Some now
        ∧ expiresAt s' = Some (now + currentDuration s)
        ∧ endsAt s' = Some (now + currentDuration s).
Proof.
  intros Hp. unfold startSession.
  rewrite bool_decide_eq_false_2 by (by rewrite Hp; intros ?).
  eexists. by repeat split.
Qed.

Lemma extendSession_Ok now h ref s s' :
  extendSession now h ref s = Ok s' →
  status s = active ∧ 1 ≤ h
  ∧ expiresAt s' = Some (expiryOrNow now s + h * HOUR_MS)
  ∧ paymentAmount s' = paymentAmount s + h * pricePerHour s
  ∧ currentDuration s' = currentDuration s + h * HOUR_MS
  ∧ extensions s' =
      (extensions s ++ [Ext.mk now h (h * pricePerHour s) ref
                               (expiryOrNow now s + h * HOUR_MS)])%list
  ∧ status s' = active ∧ startedAt s' = startedAt s.
Proof.
  unfold extendSession, HOUR_MS.
  case_bool_decide as Hst; [done|].
  case_bool_decide as Hh; [done|].
  intros [= <-]. simpl.
  assert (status s = active) as -> by (by destruct (decide (status s = active))).
  repeat split; lia.
Qed.




(** C6, as the code has it.  [isActive] holds exactly when the status is
    ['active'], the payment status is ['completed'] and the session is not
    expired, that is its [expiresAt] is unset or not yet behind the clock
    ([now <= expiresAt]). *)
Theorem isActive_iff now s :
  isActive now s = true ↔
  status s = active ∧ paymentStatus s = PayCompleted
  ∧ ∀ e, expiresAt s = Some e → now ≤ e.
Proof.
  unfold isActive. rewrite !andb_true_iff, !bool_decide_eq_true.
  rewrite negb_true_iff, isExpired_false. tauto.
Qed.

(** C6, as stated, fails on a session that was activated before its
    payment was verified: the status is ['active'] and the clock is before
    [expiresAt], yet [isActive] answers [false]. *)
Lemma isActive_unpaid_counterexample :
  ¬ (isActive 3000 (sessionOf dbJoined) = true ↔
     status (sessionOf dbJoined) = active
     ∧ ∃ e, expiresAt (sessionOf dbJoined) = Some e ∧ 3000 < e).
Proof.
  intros [_ H]. assert (isActive 3000 (sessionOf dbJoined) = true) as Hact.
  { apply H. split; [reflexivity|]. exists 3602000. split; [reflexivity | lia]. }
  vm_compute in Hact. discriminate.
Qed.

(** ** The status query *)

Lemma truthyStr_Some t : t ≠ "" → truthyStr (Some t) = true.
Proof. intros H. unfold truthyStr. by rewrite bool_decide_eq_true_2. Qed.

Lemma findByIdParam_Some id db s :
  findById id db = Some s → findByIdParam id db = Ok (Some s).
Proof. unfold findByIdParam. by intros ->. Qed.

Lemma findByIdParam_None id db :
  findById id db = None →
  findByIdParam id db
  = if isValidObjectId id then Ok None else Throw "Cast to ObjectId failed".
Proof. unfold findByIdParam. by intros ->. Qed.

(** On a store whose documents are kept under [ObjectId]s, the lookup is
    the cast followed by the query. *)
Lemma findByIdParam_cast_first id db :
  (∀ k s, sessions db !! k = Some s → isValidObjectId k = true) →
  findByIdParam id db
  = if isValidObjectId id then Ok (findById id db)
    else Throw "Cast to ObjectId failed".
Proof.
  intros Hkeys. unfold findByIdParam.
  destruct (findById id db) as [s|] eqn:Hfind; [|done].
  by rewrite (Hkeys id s Hfind).
Qed.

(** A query that is not answered 200 (401, 404, 403, 500) writes nothing. *)
Lemma getSessionStatus_refused sessionId authorization now db :
  code (getSessionStatus sessionId authorization now db).2 ≠ 200 →
  (getSessionStatus sessionId authorization now db).1 = db.
Proof.
  unfold getSessionStatus.
  destruct (truthyStr (bearerToken authorization)); simpl; [|done].
  unfold findByIdParam.
  destruct (findById sessionId db) as [s|];
    [|by destruct (isValidObjectId sessionId)].
  case_bool_decide; [done|].
  destruct (isExpired now s && _); simpl; done.
Qed.

(** C10.  An authorised status query of a session that is ['active'] and
    past its [expiresAt] stores the status ['expired'] (every other field
    of the session, and every other session, as before), takes one off the
    client's [activeSessions], and answers with the new status; an
    authorised query of any other session writes nothing. *)
Theorem getSessionStatus_not_read_only sessionId authorization now db s :
  findById sessionId db = Some s →
  _id s = sessionId →
  bearerToken authorization = Some (sessionToken s) →
  sessionToken s ≠ "" →
  (status s = active → isExpired now s = true →
     sessions (getSessionStatus sessionId authorization now db).1
       = <[sessionId := withStatus expired s]> (sessions db)
     ∧ (∀ c, clients db !! clientId s = Some c →
          ∃ c', clients (getSessionStatus sessionId authorization now db).1
                  !! clientId s = Some c'
                ∧ Client.activeSessions c' = Client.activeSessions c - 1
                ∧ Client.totalSessions c' = Client.totalSessions c)
     ∧ code (getSessionStatus sessionId authorization now db).2 = 200
     ∧ q_status <$> data (getSessionStatus sessionId authorization now db).2
         = Some expired
     ∧ q_isActive <$> data (getSessionStatus sessionId authorization now db).2
         = Some false)
  ∧ (¬ (status s = active ∧ isExpired now s = true) →
     (getSessionStatus sessionId authorization now db).1 = db
     ∧ code (getSessionStatus sessionId authorization now db).2 = 200
     ∧ q_status <$> data (getSessionStatus sessionId authorization now db).2
         = Some (status s)).
Proof.
  intros Hfind Hid Htok Hne. unfold getSessionStatus.
  rewrite Htok, (truthyStr_Some _ Hne), (findByIdParam_Some _ _ _ Hfind). simpl.
  rewrite bool_decide_eq_false_2 by (intros H; by apply H).
  split.
  - intros Hst Hexp. rewrite Hexp, Hst. simpl.
    rewrite Hid. repeat split.
    intros c Hc. rewrite lookup_alter_eq, Hc. simpl.
    eexists. split; [done|]. simpl. split; lia.
  - intros Hno.
    destruct (isExpired now s) eqn:Hexp; simpl; [|done].
    case_bool_decide as Hst; simpl; [|done].
    exfalso. by apply Hno.
Qed.

Lemma getSessionStatus_not_read_only_witness :
  sessions (getSessionStatus "s1" (Some "Bearer jwt.ada") 4000000 dbActive).1
    = <[ "s1" := withStatus expired (sessionOf dbActive) ]> (sessions dbActive)
  ∧ Client.activeSessions <$>
      clients (getSessionStatus "s1" (Some "Bearer jwt.ada") 4000000 dbActive).1
        !! "c1" = Some 0
  ∧ (getSessionStatus "s1" (Some "Bearer jwt.ada") 3000 dbActive).1 = dbActive.
Proof.
  pose proof (getSessionStatus_not_read_only "s1" (Some "Bearer jwt.ada")
                4000000 dbActive (sessionOf dbActive)
                eq_refl eq_refl eq_refl ltac:(discriminate)) as [Hexp _].
  pose proof (getSessionStatus_not_read_only "s1" (Some "Bearer jwt.ada")
                3000 dbActive (sessionOf dbActive)
                eq_refl eq_refl eq_refl ltac:(discriminate)) as [_ Hlive].
  destruct (Hexp eq_refl eq_refl) as (Hs & Hc & _).
  destruct (Hc (Client.mk "ada" 1 1) eq_refl) as (c' & Hc' & Ha & _).
  change (clientId (sessionOf dbActive)) with "c1" in Hc'.
  split; [exact Hs|]. split.
  - rewrite Hc'. simpl. rewrite Ha. reflexivity.
  - apply Hlive. intros [_ H]. vm_compute in H. discriminate.
Defined.

(** ** Extension *)

(** [extendSession] looks at the status and at the hour count only: on an
    active session every extension of at least one hour is applied,
    whatever the clock and whatever references the session already holds. *)
Lemma extendSession_active now h ref s :
  status s = active → 1 ≤ h →
  ∃ s', extendSession now h ref s = Ok s'
        ∧ extensions s' =
            (extensions s ++ [Ext.mk now h (h * pricePerHour s) ref
                                     (expiryOrNow now s + h * HOUR_MS)])%list
        ∧ expiresAt s' = Some (expiryOrNow now s + h * HOUR_MS).
Proof.
  intros Hst Hh.
  destruct (extendSession now h ref s) as [s'|msg] eqn:Hext.
  - exists s'. apply extendSession_Ok in Hext as (_ & _ & Hexp & _ & _ & Hexts & _).
    by repeat split.
  - exfalso. revert Hext. unfold extendSession.
    rewrite bool_decide_eq_false_2 by (by rewrite Hst; intros ?).
    by rewrite bool_decide_eq_false_2 by lia.
Qed.

(** So does the handler that applies a paid extension: whatever the
    clock and whatever the session already holds, a verified extension
    reference of an active session appends a record and moves the expiry. *)
Lemma verify_extension_applies reference pv now db s :
  isExtensionReference reference = true →
  sessionOfReference reference db = Some s →
  status s = active →
  pv_status pv = true → pv_dataStatus pv = ChargeSuccess →
  1 ≤ verifiedHours pv →
  ∃ s', verifyConsultationPayment reference (Ok pv) now db
        = (saveSession s' db,
           answer "Session extended successfully" (verifyData now s'))
        ∧ extensions s' =
            (extensions s ++
             [Ext.mk now (verifiedHours pv) (verifiedHours pv * pricePerHour s)
                     reference
                     (expiryOrNow now s + verifiedHours pv * HOUR_MS)])%list
        ∧ expiresAt s' = Some (expiryOrNow now s + verifiedHours pv * HOUR_MS).
Proof.
  intros Hkind Hs Hst Hok Hcharge Hh.
  destruct (extendSession_active now (verifiedHours pv) reference s Hst Hh)
    as (s' & Hext & Hexts & Hexp).
  exists s'. split; [|by split].
  unfold verifyConsultationPayment.
  rewrite bool_decide_eq_false_2 by (intros ->; discriminate).
  by rewrite Hs, Hok, Hcharge, Hkind, Hext.
Qed.

(** C1, at a replayed extension reference.  The one-hour session of the
    worked booking is active until 3602000.  The extension reference
    ["EXTEND_s1_u9"] is verified at 3000 and, redelivered, again at 4000:
    both calls answer 200, the session holds two extension records with
    that one reference, its expiry has moved by two hours and two hours
    have been added to the paid amount. *)
Theorem extension_reference_replay_extends_twice :
  let first := verifyConsultationPayment "EXTEND_s1_u9" (Ok paidOneHour) 3000 dbActive in
  let second := verifyConsultationPayment "EXTEND_s1_u9" (Ok paidOneHour) 4000 first.1 in
  code first.2 = 200
  ∧ code second.2 = 200
  ∧ message second.2 = "Session extended successfully"
  ∧ Ext.paymentReference <$> extensions (sessionOf first.1) = ["EXTEND_s1_u9"]
  ∧ Ext.paymentReference <$> extensions (sessionOf second.1)
      = ["EXTEND_s1_u9"; "EXTEND_s1_u9"]
  ∧ expiresAt (sessionOf second.1) = Some (3602000 + 2 * HOUR_MS)
  ∧ paymentAmount (sessionOf second.1) = 5000 + 2 * 5000.
Proof. vm_compute. repeat split. Qed.

(** The other two replays are harmless: a second document with a stored
    payment reference is refused by the unique index, and the
    verification of an original charge that is already completed answers
    without writing (see [verify_completed_is_noop] below). *)
Lemma insertSession_duplicate_reference s db k s0 :
  sessions db !! k = Some s0 →
  paymentReference s0 = paymentReference s →
  insertSession s db = Throw "E11000 duplicate key error".
Proof.
  intros Hk Href. unfold insertSession, findOne.
  destruct (List.find _ (map_to_list (sessions db))) as [kv|] eqn:Hfind; [done|].
  exfalso.
  assert (In (k, s0) (map_to_list (sessions db))) as Hin
    by apply list_elem_of_In, elem_of_map_to_list, Hk.
  pose proof (find_none _ _ Hfind (k, s0) Hin) as Hno. simpl in Hno.
  rewrite Href in Hno. by rewrite bool_decide_eq_true_2 in Hno.
Qed.

(** C2, at an extension paid for in time and verified late.  At 3500000
    the session (expiry 3602000) is live and [initializeSessionExtension]
    hands out the reference; at 3700000 the session's clock has run out,
    a new [initializeSessionExtension] is refused with 400, yet the
    verification of the paid reference applies the extension. *)
Theorem extension_after_expiry_is_applied :
  let s := sessionOf dbActive in
  let asked := mkExtendBody (Some "s1") (Some 1) None in
  let late := verifyConsultationPayment "EXTEND_s1_u9" (Ok paidOneHour) 3700000 dbActive in
  status s = active
  ∧ expiresAt s = Some 3602000
  ∧ (x_reference <$> data (initializeSessionExtension asked "u9" (Ok true) 3500000 dbActive))
      = Some "EXTEND_s1_u9"
  ∧ isExpired 3700000 s = true
  ∧ initializeSessionExtension asked "u9" (Ok true) 3700000 dbActive
      = failure 400 "Cannot extend expired session. Please start a new consultation."
  ∧ code late.2 = 200
  ∧ message late.2 = "Session extended successfully"
  ∧ expiresAt (sessionOf late.1) = Some (3602000 + HOUR_MS)
  ∧ length (extensions (sessionOf late.1)) = 1%nat
  ∧ paymentAmount (sessionOf late.1) = 5000 + 5000.
Proof. vm_compute. repeat split. Qed.

(** ** Activation *)

(** The two activations that use the booked duration: payment
    verification ([startSession]) and ['join:consultation']. *)
Lemma booked_then_started oid pid cid u ref tok hours paidAt' now :
  ∃ s', startSession now (markPaid paidAt' (newSession oid pid cid u ref tok hours))
        = Ok s'
        ∧ startedAt s' = Some now
        ∧ expiresAt s' = Some (now + hours * HOUR_MS).
Proof.
  destruct (startSession_paid now
              (markPaid paidAt' (newSession oid pid cid u ref tok hours)) eq_refl)
    as (s' & Hs & _ & Hstart & Hexp & _).
  exists s'. by repeat split.
Qed.

Lemma booked_then_joined oid pid cid u ref tok hours now :
  let s' := activateOnJoin now (newSession oid pid cid u ref tok hours) in
  startedAt s' = Some now ∧ expiresAt s' = Some (now + hours * HOUR_MS).
Proof. by split. Qed.

(** The third activation, by the first message, does not: whatever was
    booked, the session it saves ends a fixed day after the message and
    has the [expiresAt] it had before, that is none. *)
Lemma first_message_activation sk sessionId content mid now srv db s s' :
  findById sessionId db = Some s →
  status s = pending →
  In (SaveSession s') (consultationMessage sk sessionId content mid now srv db).2 →
  status s' = active ∧ startedAt s' = Some now
  ∧ endsAt s' = Some (now + DAY_MS) ∧ expiresAt s' = expiresAt s.
Proof.
  intros Hfind Hst. unfold consultationMessage.
  destruct content as [content|]; [|by intros [[=]|[]]].
  destruct (negb _ || _ || _); [by intros [[=]|[]]|].
  rewrite Hfind.
  destruct (bool_decide (status s ≠ active) && _); [by intros [[=]|[]]|].
  destruct (match endsAt s with Some _ => _ | None => _ end);
    [by intros [[=]|[]]|].
  destruct (senderOf _ _ _) as [[senderId senderType]|]; [|by intros [[=]|[]]].
  destruct (negb (truthyStr senderId)); [by intros [[=]|[]]|].
  simpl. intros [[=]|[[= <-]|[[=]|[]]]]. simpl.
  by rewrite bool_decide_eq_true_2.
Qed.

(** C3, at the activation by the first message.  One hour is booked
    (session ["s1"], pending); the professional's first message at the
    instant 2000 activates it.  The handler stamps [endsAt] 24 hours
    ahead, whatever was booked, and leaves [expiresAt] unset. *)
Theorem first_message_activation_is_a_fixed_day :
  let s := sessionOf dbBooked in
  let sent := consultationMessage "skP" "s1" (Some "hello") "m1" 2000
                                  srvProfessional dbBooked in
  status s = pending
  ∧ durationHours s = 1
  ∧ currentDuration s = 1 * HOUR_MS
  ∧ status (sessionOf sent.1) = active
  ∧ startedAt (sessionOf sent.1) = Some 2000
  ∧ expiresAt (sessionOf sent.1) = None
  ∧ endsAt (sessionOf sent.1) = Some (2000 + 24 * HOUR_MS)
  ∧ isExpired (2000 + 30 * HOUR_MS) (sessionOf sent.1) = false.
Proof. vm_compute. repeat split. Qed.

Lemma findOne_Some P db s :
  findOne P db = Some s → P s = true ∧ ∃ k, sessions db !! k = Some s.
Proof.
  unfold findOne.
  destruct (List.find _ (map_to_list (sessions db))) as [[k s0]|] eqn:Hfind;
    [|done].
  intros [= <-]. apply find_some in Hfind as [Hin HP]. split; [done|].
  exists k. by apply elem_of_map_to_list, list_elem_of_In.
Qed.

(** The verification of an original charge whose payment is already
    completed answers 200 and writes nothing. *)
Lemma verify_completed_is_noop reference pv now db s :
  reference ≠ "" →
  isExtensionReference reference = false →
  sessionOfReference reference db = Some s →
  paymentStatus s = PayCompleted →
  pv_status pv = true → pv_dataStatus pv = ChargeSuccess →
  verifyConsultationPayment reference (Ok pv) now db
  = (db, answer "Payment already verified" (verifyData now s)).
Proof.
  intros Hne Hkind Hs Hpaid Hok Hcharge. unfold verifyConsultationPayment.
  rewrite bool_decide_eq_false_2 by done.
  rewrite Hs, Hok, Hcharge, Hkind. simpl.
  by rewrite bool_decide_eq_true_2.
Qed.

(** The two socket activations are guarded by the status.  On a session
    that is already ['active'], ['join:consultation'] writes nothing: it
    answers with the room joined, or with an error when the session is
    past its expiry. *)
Lemma join_active_writes_nothing sk token now srv db s :
  findOne (λ s, bool_decide (sessionToken s = token)) db = Some s →
  status s = active →
  (joinConsultation sk token now srv db).1.1 = db
  ∧ (joinConsultation sk token now srv db).2
    = if isExpired now s then
        [socketEmit sk (ErrorEvent "Session has expired")]
      else
        [socketEmit sk
           (JoinedConsultation (_id s) (professionalId s) (endsAt s))].
Proof.
  intros Hfind Hst. unfold joinConsultation. rewrite Hfind.
  destruct (isExpired now s); [done|].
  rewrite bool_decide_eq_false_2 by (by rewrite Hst). done.
Qed.

(** A message into a session that is already ['active'] leaves its
    status, its start and its expiry as they are, whether it is relayed
    or refused. *)
Lemma message_active_keeps_activation sk sessionId content mid now srv db s s' :
  findById sessionId db = Some s →
  status s = active →
  findById sessionId
    (consultationMessage sk sessionId content mid now srv db).1 = Some s' →
  status s' = status s ∧ startedAt s' = startedAt s
  ∧ expiresAt s' = expiresAt s ∧ endsAt s' = endsAt s.
Proof.
  intros Hfind Hst. unfold consultationMessage.
  assert (findById sessionId db = Some s' →
          status s' = status s ∧ startedAt s' = startedAt s
          ∧ expiresAt s' = expiresAt s ∧ endsAt s' = endsAt s) as Hsame.
  { rewrite Hfind. by intros [= <-]. }
  destruct content as [content|]; [|done].
  destruct (negb _ || _ || _); [done|].
  rewrite Hfind.
  destruct (bool_decide (status s ≠ active) && _); [done|].
  destruct (match endsAt s with Some _ => _ | None => _ end); [done|].
  destruct (senderOf _ _ _) as [[senderId senderType]|]; [|done].
  destruct (negb (truthyStr senderId)); [done|].
  unfold findById, saveSession, saveMessage. simpl.
  destruct (decide (_id s = sessionId)) as [<-|Hne].
  - rewrite lookup_insert_eq. intros [= <-]. simpl.
    rewrite bool_decide_eq_false_2 by (by rewrite Hst). done.
  - rewrite lookup_insert_ne by done. apply Hsame.
Qed.

(** C5, at the verification of the payment of a session that is already
    active.  The booked session of the worked booking was activated over
    ['join:consultation'] at 2000, its payment still pending: it started
    at 2000 and expires at 3602000.  The verification of its charge at
    5000 activates it again: [startSession] has no guard on the status,
    and stamps the start 5000 and the expiry 3605000.  The method does
    the same to the paid, active session.  The same session joined again
    at 5000 is left as it is. *)
Theorem activation_again_restamps :
  let again :=
    verifyConsultationPayment "CONSULT_u1" (Ok paidOneHour) 5000 dbJoined in
  status (sessionOf dbJoined) = active
  ∧ startedAt (sessionOf dbJoined) = Some 2000
  ∧ expiresAt (sessionOf dbJoined) = Some 3602000
  ∧ code again.2 = 200
  ∧ message again.2 = "Payment verified and session activated"
  ∧ status (sessionOf again.1) = active
  ∧ startedAt (sessionOf again.1) = Some 5000
  ∧ expiresAt (sessionOf again.1) = Some 3605000
  ∧ status (sessionOf dbActive) = active
  ∧ startedAt (sessionOf dbActive) = Some 2000
  ∧ (∃ s', startSession 9000 (sessionOf dbActive) = Ok s'
           ∧ startedAt s' = Some 9000
           ∧ expiresAt s' = Some (9000 + HOUR_MS))
  ∧ (joinConsultation "skJ" "jwt.ada" 5000 noServer dbJoined).1.1 = dbJoined.
Proof.
  vm_compute.
  repeat (split; [reflexivity|]).
  split; [|reflexivity].
  eexists. repeat (split; [reflexivity|]). reflexivity.
Qed.

(** ** The review gate *)





(** ** The chat relays *)

(** The only event a refused send emits is an error to the sender. *)
Ltac refused :=
  simpl; intros [[= <- <-]|[]]; discriminate.

(** C8, as stated, fails at the client of the worked booking: connected
    to the socket server, the client's socket ["skC"] is joined to the
    room of its session, and the message it sends is stored and then
    emitted to the whole room, the sender included; [socket.to], which
    leaves the sender out, would have reached nobody. *)
Lemma chat_send_reaches_sender_counterexample :
  let m := Message.mk "m1" "s1" "ANON-7Q2KXA" client "hi" Message.text false 2500 in
  let sent := consultationMessage "skC" "s1" (Some "hi") "m1" 2500 srvClient dbActive in
  In (Emit (ioTo (consultationRoom "s1") srvClient) (ConsultationMessage m)) sent.2
  ∧ In m (messages sent.1)
  ∧ "skC" ∈ ioTo (consultationRoom "s1") srvClient
  ∧ "skC" ∉ socketTo "skC" (consultationRoom "s1") srvClient.
Proof.
  simpl. split; [right; right; left; reflexivity|].
  split; [left; reflexivity|]. split.
  - apply (bool_decide_unpack _). vm_compute. exact I.
  - unfold socketTo. intros Hin. apply elem_of_difference in Hin as [_ Hout].
    apply Hout. by apply elem_of_singleton.
Qed.

(** C8, as the code has it.  A chat send that goes through first writes
    the message to the store and then emits it with [io.to(room)]: the
    recipients are all the sockets joined to the session's room, and the
    sender's own socket is one of them whenever it is joined. *)
Theorem chat_send_fans_out_to_room :
  (∀ sk sessionId content mid now srv db to ev,
     In (Emit to ev) (consultationMessage sk sessionId content mid now srv db).2 →
     isChat ev = true →
     ∃ m s',
       (consultationMessage sk sessionId content mid now srv db).2
       = [SaveMessage m; SaveSession s';
          Emit (members (consultationRoom sessionId) srv) (ConsultationMessage m)]
       ∧ ev = ConsultationMessage m
       ∧ to = members (consultationRoom sessionId) srv
       ∧ In m (messages (consultationMessage sk sessionId content mid now srv db).1)
       ∧ (sk ∈ members (consultationRoom sessionId) srv → sk ∈ to))
  ∧ (∀ addMessage sk token message senderType now srv db to ev,
       In (Emit to ev)
          (messageSend addMessage sk token message senderType now srv db).2 →
       isChat ev = true →
       ∃ s d,
         findOne (λ s, bool_decide (sessionToken s = token)) db = Some s
         ∧ addMessage d s db
           = Ok (messageSend addMessage sk token message senderType now srv db).1
         ∧ (messageSend addMessage sk token message senderType now srv db).2
           = [AddMessage d;
              Emit (members (consultationRoom (_id s)) srv) (MessageReceived d)]
         ∧ ev = MessageReceived d
         ∧ to = members (consultationRoom (_id s)) srv
         ∧ (sk ∈ members (consultationRoom (_id s)) srv → sk ∈ to)).
Proof.
  split.
  - intros sk sessionId content mid now srv db to ev.
    unfold consultationMessage.
    destruct content as [content|]; [|refused].
    destruct (negb _ || _ || _); [refused|].
    destruct (findById sessionId db) as [s|]; [|refused].
    destruct (bool_decide (status s ≠ active) && _); [refused|].
    destruct (match endsAt s with Some _ => _ | None => _ end); [refused|].
    destruct (senderOf _ _ _) as [[senderId senderType]|]; [|refused].
    destruct (negb (truthyStr senderId)); [refused|].
    simpl. intros [[=]|[[=]|[[= <- <-]|[]]]] _.
    eexists _, _. split; [reflexivity|]. split; [reflexivity|].
    split; [reflexivity|]. split; [|done].
    apply in_or_app. right. by left.
  - intros addMessage sk token message senderType now srv db to ev.
    unfold messageSend.
    destruct (findOne _ db) as [s|]; [|refused].
    destruct (isExpired now s); [refused|].
    destruct (addMessage _ s db) as [db'|e] eqn:Hadd; [|refused].
    simpl. intros [[=]|[[= <- <-]|[]]] _.
    exists s. eexists. split; [reflexivity|]. split; [exact Hadd|].
    by repeat split.
Qed.

Lemma chat_send_fans_out_to_room_witness :
  ∃ m s',
    (consultationMessage "skC" "s1" (Some "hi") "m1" 2500 srvClient dbActive).2
    = [SaveMessage m; SaveSession s';
       Emit (members (consultationRoom "s1") srvClient) (ConsultationMessage m)]
    ∧ "skC" ∈ members (consultationRoom "s1") srvClient.
Proof.
  destruct chat_send_fans_out_to_room as [Hrelay _].
  destruct (Hrelay "skC" "s1" (Some "hi") "m1" 2500 srvClient dbActive
              (members (consultationRoom "s1") srvClient)
              (ConsultationMessage
                 (Message.mk "m1" "s1" "ANON-7Q2KXA" client "hi" Message.text
                             false 2500)))
    as (m & s' & Htrace & _ & _ & _ & Hself).
  - simpl. right. right. left. reflexivity.
  - reflexivity.
  - exists m, s'. split; [exact Htrace|].
    apply (bool_decide_unpack _). vm_compute. exact I.
Defined.

(** ** The client tokens *)

Lemma window_claims payload sp now :
  Jwt.window (Jwt.claims payload sp now) = Jwt.seconds sp.
Proof. unfold Jwt.window, Jwt.claims. simpl. lia. Qed.

(** C9, as stated, fails at booking: the token handed out with the
    one-hour session of the worked booking is valid for seven days, which
    is neither the longest bookable session (8 hours) plus one hour nor
    the booked hour plus one hour. *)
Lemma booking_token_window_counterexample :
  let booked := initializeConsultationPayment demoSign oneHour "s1" "u1"
                                              (Ok true) 1000 dbEmpty in
  i_sessionToken <$> data booked.2
    = Some (demoSign (bookingTokenClaims "c1" "ada" "p1" 1000))
  ∧ i_durationHours <$> data booked.2 = Some 1
  ∧ Jwt.window (bookingTokenClaims "c1" "ada" "p1" 1000) = 604800
  ∧ Jwt.window (bookingTokenClaims "c1" "ada" "p1" 1000)
      ≠ MAXIMUM_HOURS * 3600 + 3600
  ∧ Jwt.window (bookingTokenClaims "c1" "ada" "p1" 1000) ≠ 1 * 3600 + 3600.
Proof.
  simpl. split; [reflexivity|]. split; [reflexivity|].
  split; [reflexivity|]. split; vm_compute; discriminate.
Qed.

(** C9, as the code has it.  The token of [generateClientSessionToken] is
    valid for 25 hours: the fixed 24-hour window of a first-message
    activation plus one hour.  The token issued at booking by
    [initializeConsultationPayment] is the stored [sessionToken]; it is
    valid for seven days, for every bookable duration from 1 to 8 hours. *)
Theorem token_windows :
  (∀ sign sessionId anon now,
     generateClientSessionToken sign sessionId anon now
     = sign (clientTokenClaims sessionId anon now)
     ∧ Jwt.window (clientTokenClaims sessionId anon now) * 1000
       = DAY_MS + HOUR_MS)
  ∧ (∀ sign body oid uuid paystack now db d,
       data (initializeConsultationPayment sign body oid uuid paystack now db).2
       = Some d →
       ∃ professionalId' clientId' c,
         b_professionalId body = Some professionalId'
         ∧ b_clientId body = Some clientId'
         ∧ clients db !! clientId' = Some c
         ∧ i_sessionToken d
           = sign (bookingTokenClaims clientId' (Client.username c)
                                      professionalId' now)
         ∧ Jwt.window (bookingTokenClaims clientId' (Client.username c)
                                          professionalId' now)
           = 7 * 24 * 3600
         ∧ MINIMUM_HOURS ≤ i_durationHours d ≤ MAXIMUM_HOURS
         ∧ b_durationHours body = Some (i_durationHours d)).
Proof.
  split.
  - intros sign sessionId anon now. split; [reflexivity|].
    unfold clientTokenClaims. rewrite window_claims. reflexivity.
  - intros sign body oid uuid paystack now db d.
    unfold initializeConsultationPayment.
    destruct (b_professionalId body) as [pid|]; [|done].
    destruct (b_clientId body) as [cid|]; [|done].
    destruct (b_durationHours body) as [hours|]; [|done].
    destruct (negb _ || _ || _); [done|].
    case_bool_decide as Hmin; [done|].
    case_bool_decide as Hmax; [done|].
    destruct (clients db !! cid) as [c|] eqn:Hc; [|done].
    destruct (insertSession _ db) as [db1|e]; [|done].
    destruct paystack as [[|]|e]; simpl; try done.
    intros [= <-]. exists pid, cid, c. simpl.
    repeat split; try done; try lia.
    unfold bookingTokenClaims. by rewrite window_claims.
Qed.

Lemma token_windows_witness :
  ∃ c, i_sessionToken <$>
         data (initializeConsultationPayment demoSign oneHour "s1" "u1"
                                             (Ok true) 1000 dbEmpty).2
       = Some (demoSign (bookingTokenClaims "c1" (Client.username c) "p1" 1000))
       ∧ Jwt.window (bookingTokenClaims "c1" (Client.username c) "p1" 1000)
         = 7 * 24 * 3600.
Proof.
  destruct token_windows as [_ Hbooking].
  destruct (Hbooking demoSign oneHour "s1" "u1" (Ok true) 1000 dbEmpty
              (mkInitData "s1" "CONSULT_u1" "jwt.ada" 1 "ada") eq_refl)
    as (pid & cid & c & Hpid & Hcid & Hc & Htok & Hwin & _).
  injection Hpid as <-. injection Hcid as <-.
  exists c. split; [|exact Hwin].
  rewrite <- Htok. reflexivity.
Defined.

(** * Further properties of the session engine *)

(** ** Remaining time and the sweep *)

Lemma isActive_active_live now s :
  isActive now s = true →
  status s = active ∧ paymentStatus s = PayCompleted
  ∧ ∀ e, expiresAt s = Some e → now ≤ e.
Proof.
  unfold isActive. rewrite !andb_true_iff, !bool_decide_eq_true.
  rewrite negb_true_iff. intros [[Hst Hpay] Hlive].
  split; [done|]. split; [done|]. by apply isExpired_false.
Qed.

(** X1.  The remaining time is never negative; it is zero exactly when
    the expiry is unset or not ahead of the clock, and the distance to the
    expiry otherwise.  At the very instant of expiry, and for a session
    without expiry, a session can be [isActive] with no time remaining. *)
Theorem getRemainingTime_bounds now s :
  0 ≤ getRemainingTime now s
  ∧ (getRemainingTime now s = 0 ↔ ∀ e, expiresAt s = Some e → e ≤ now)
  ∧ (∀ e, expiresAt s = Some e → now ≤ e → getRemainingTime now s = e - now)
  ∧ (isExpired now s = true → getRemainingTime now s = 0)
  ∧ (isActive now s = true → getRemainingTime now s = 0 →
     expiresAt s = None ∨ expiresAt s = Some now).
Proof.
  unfold getRemainingTime.
  destruct (expiresAt s) as [e|] eqn:He.
  - repeat split.
    + lia.
    + intros H e' [= <-]. lia.
    + intros H. specialize (H e eq_refl). lia.
    + intros e' [= <-] Hle. lia.
    + intros Hexp. apply isExpired_true in Hexp as (e' & He' & Hlt).
      rewrite He in He'. injection He' as <-. lia.
    + intros Hact Hzero. right. f_equal.
      apply isActive_active_live in Hact as (_ & _ & Hlive).
      specialize (Hlive e He). lia.
  - repeat split; try done.
    + intros _ Hzero. by left.
Qed.

(** The sweep of one document. *)
Lemma expireOldSessions_lookup now m k :
  expireOldSessions now m !! k
  = (λ s, if sweepMatches now s then withStatus expired s else s) <$> m !! k.
Proof. unfold expireOldSessions. by rewrite lookup_fmap. Qed.

Lemma sweepMatches_expired now st s :
  st ≠ active → sweepMatches now (withStatus st s) = false.
Proof.
  intros Hst. unfold sweepMatches. simpl.
  by rewrite bool_decide_eq_false_2.
Qed.

Lemma sweepMatches_mono now now' s :
  now ≤ now' → sweepMatches now s = true → sweepMatches now' s = true.
Proof.
  unfold sweepMatches. intros Hle.
  rewrite !andb_true_iff. intros [Hst He]. split; [done|].
  destruct (expiresAt s) as [e|]; [|done].
  apply bool_decide_eq_true in He. apply bool_decide_eq_true. lia.
Qed.

(** The filter of the sweep ([$lt]) and [isExpired] ([>]) agree. *)
Lemma sweepMatches_true now s :
  sweepMatches now s = true ↔ status s = active ∧ isExpired now s = true.
Proof.
  unfold sweepMatches. rewrite andb_true_iff, bool_decide_eq_true.
  rewrite isExpired_true. split.
  - intros [Hst He]. split; [done|].
    destruct (expiresAt s) as [e|]; [|done].
    apply bool_decide_eq_true in He. by exists e.
  - intros [Hst (e & He & Hlt)]. split; [done|]. rewrite He.
    by apply bool_decide_eq_true.
Qed.

(** X2.  The sweep is idempotent, and a later sweep absorbs an earlier
    one; after a sweep, the same sweep finds nothing left to modify. *)
Theorem expireOldSessions_absorbs now now' m :
  now ≤ now' →
  expireOldSessions now' (expireOldSessions now m) = expireOldSessions now' m
  ∧ expireOldSessions now (expireOldSessions now m) = expireOldSessions now m
  ∧ expiredCount now (expireOldSessions now m) = 0%nat.
Proof.
  intros Hle.
  assert (∀ t t', t ≤ t' →
            expireOldSessions t' (expireOldSessions t m) = expireOldSessions t' m)
    as Habsorb.
  { intros t t' Ht. apply map_eq. intros k.
    rewrite !expireOldSessions_lookup.
    destruct (m !! k) as [s|]; simpl; [|done]. f_equal.
    destruct (sweepMatches t s) eqn:Hm.
    - rewrite sweepMatches_expired by done.
      by rewrite (sweepMatches_mono t t' s Ht Hm).
    - done. }
  split; [by apply Habsorb|]. split; [apply Habsorb; lia|].
  unfold expiredCount.
  assert (∀ l : list (string * Session),
            (∀ kv, In kv l → sweepMatches now kv.2 = false) →
            List.filter (λ kv, sweepMatches now kv.2) l = []) as Hnone.
  { induction l as [|kv l IH]; [done|]. intros Hall. simpl.
    rewrite (Hall kv) by (by left). apply IH. intros kv' Hin.
    apply Hall. by right. }
  rewrite Hnone; [done|]. intros [k s'] Hin. simpl.
  apply list_elem_of_In, elem_of_map_to_list in Hin.
  rewrite expireOldSessions_lookup in Hin.
  destruct (m !! k) as [s|]; simpl in Hin; [|done].
  injection Hin as <-.
  destruct (sweepMatches now s) eqn:Hm; [|done].
  by apply sweepMatches_expired.
Qed.

Lemma expireOldSessions_absorbs_witness :
  expireOldSessions 5000000 (expireOldSessions 4000000 (sessions dbActive))
  = expireOldSessions 5000000 (sessions dbActive)
  ∧ expiredCount 4000000 (sessions dbActive) = 1%nat
  ∧ expiredCount 4000000 (expireOldSessions 4000000 (sessions dbActive)) = 0%nat.
Proof.
  destruct (expireOldSessions_absorbs 4000000 5000000 (sessions dbActive))
    as (Habsorb & _ & Hzero); [lia|].
  split; [exact Habsorb|]. split; [reflexivity | exact Hzero].
Defined.

(** X3.  The sweep keeps every document in place and changes nothing but
    the status: it never touches a session that [isActive] at that
    instant, it does not change what [isActive] answers at that instant,
    and the sessions it leaves ['active'] have no expiry behind the clock
    (a session without [expiresAt] is never swept). *)
Theorem expireOldSessions_safe now m k :
  match m !! k with
  | None => expireOldSessions now m !! k = None
  | Some s =>
      ∃ s', expireOldSessions now m !! k = Some s'
            ∧ (s' = s ∨ status s = active ∧ s' = withStatus expired s
                        ∧ isExpired now s = true)
            ∧ isActive now s' = isActive now s
            ∧ (isActive now s = true → s' = s)
            ∧ (expiresAt s = None → s' = s)
            ∧ (status s' = active → ∀ e, expiresAt s' = Some e → now ≤ e)
  end.
Proof.
  rewrite expireOldSessions_lookup.
  destruct (m !! k) as [s|]; simpl; [|done].
  eexists. split; [reflexivity|].
  destruct (sweepMatches now s) eqn:Hm.
  - apply sweepMatches_true in Hm as [Hst Hexp].
    assert (isActive now s = false) as Hina.
    { unfold isActive. rewrite Hexp. apply andb_false_r. }
    split; [right; by repeat split|].
    split; [by rewrite Hina|].
    split; [by rewrite Hina|].
    split; [|done].
    intros Hnone. unfold isExpired in Hexp. by rewrite Hnone in Hexp.
  - split; [by left|]. repeat split; try done.
    intros Hst e He.
    destruct (decide (now ≤ e)) as [|Hgt]; [done|]. exfalso.
    assert (sweepMatches now s = true) as Hm'; [|by rewrite Hm in Hm'].
    apply sweepMatches_true. split; [done|].
    apply isExpired_true. exists e. split; [done | lia].
Qed.

(** ** The bookkeeping of the model methods *)

(** X4.  A booked session is coherent, and [startSession] and
    [extendSession] keep it so: [endsAt] follows [expiresAt], the
    extension counter is the length of the [extensions] array, the amount
    paid is the hourly price times the hours paid for, and the session
    expires [currentDuration] after its start.  The last extension record
    carries the new expiry.  ([extendSession] falls back to the clock for
    an expiry at the epoch, which is excluded.) *)
Theorem model_methods_keep_coherent :
  (∀ oid pid cid u ref tok hours,
     coherent (newSession oid pid cid u ref tok hours))
  ∧ (∀ now s s', coherent s → startSession now s = Ok s' →
       coherent s' ∧ startedAt s' = Some now)
  ∧ (∀ now h ref s s',
       coherent s → expiresAt s ≠ Some 0 →
       extendSession now h ref s = Ok s' →
       coherent s'
       ∧ Ext.newExpiresAt <$> last (extensions s') = expiresAt s').
Proof.
  split; [|split].
  - intros. split; simpl; try done.
    unfold HOUR_MS, DEFAULT_PRICE_PER_HOUR. lia.
  - intros now s s' [Hends Hcount Hflag Hpaid Hwin].
    unfold startSession. case_bool_decide; [done|]. intros [= <-].
    split; [|done]. split; simpl; try done.
    by intros t [= <-].
  - intros now h ref s s' [Hends Hcount Hflag Hpaid Hwin] Hzero.
    unfold extendSession.
    case_bool_decide; [done|]. case_bool_decide; [done|]. intros [= <-].
    split; [split|]; simpl.
    + done.
    + rewrite length_app. simpl. lia.
    + split; [intros _ | done]. by destruct (extensions s).
    + unfold HOUR_MS in *. lia.
    + intros t Ht. specialize (Hwin t Ht). unfold expiryOrNow.
      rewrite Hwin in *. case_bool_decide as Hz.
      * exfalso. apply Hzero. by rewrite Hz.
      * f_equal. lia.
    + by rewrite last_snoc.
Qed.

Lemma model_methods_keep_coherent_witness :
  coherent (sessionOf dbActive)
  ∧ ∃ s', extendSession 2500 2 "EXTEND_s1_u9" (sessionOf dbActive) = Ok s'
          ∧ coherent s'
          ∧ Ext.newExpiresAt <$> last (extensions s') = Some 10802000.
Proof.
  destruct model_methods_keep_coherent as (Hnew & Hstart & Hextend).
  assert (coherent (sessionOf dbActive)) as Hco.
  { apply (Hstart 2000 (markPaid 1500 (newSession "s1" "p1" "c1" "ada"
                                         "CONSULT_u1" "jwt.ada" 1))).
    - destruct (Hnew "s1" "p1" "c1" "ada" "CONSULT_u1" "jwt.ada" 1).
      by split.
    - reflexivity. }
  split; [exact Hco|].
  eexists. split; [reflexivity|].
  destruct (Hextend 2500 2 "EXTEND_s1_u9" (sessionOf dbActive) _ Hco
              ltac:(discriminate) eq_refl) as [Hco' Hlast].
  split; [exact Hco' | exact Hlast].
Defined.

(** ** The store under the handlers *)

Lemma wellFormed_sessions db db' :
  sessions db' = sessions db → wellFormed db → wellFormed db'.
Proof.
  intros Heq [Hk Hr Ht]. split; rewrite Heq; assumption.
Qed.

(** A document saved over its stored version, with the same id, payment
    reference and token. *)
Lemma saveSession_wellFormed db s s0 :
  wellFormed db →
  sessions db !! _id s0 = Some s0 →
  _id s = _id s0 →
  paymentReference s = paymentReference s0 →
  sessionToken s = sessionToken s0 →
  wellFormed (saveSession s db).
Proof.
  intros [Hk Hr Ht] Hs0 Hid Href Htok.
  assert (∀ k x, sessions (saveSession s db) !! k = Some x →
            ∃ x0, sessions db !! k = Some x0 ∧ _id x = _id x0
                  ∧ paymentReference x = paymentReference x0
                  ∧ sessionToken x = sessionToken x0) as Hold.
  { intros k x. unfold saveSession. simpl. rewrite Hid.
    destruct (decide (_id s0 = k)) as [<-|Hne].
    - rewrite lookup_insert_eq. intros [= <-]. by exists s0.
    - rewrite lookup_insert_ne by done. intros Hx. by exists x. }
  split.
  - intros k x Hx. apply Hold in Hx as (x0 & Hx0 & -> & _). by apply Hk.
  - intros k1 k2 x1 x2 H1 H2 Heq.
    apply Hold in H1 as (y1 & Hy1 & _ & Hr1 & _).
    apply Hold in H2 as (y2 & Hy2 & _ & Hr2 & _).
    apply (Hr k1 k2 y1 y2 Hy1 Hy2). congruence.
  - intros k1 k2 x1 x2 H1 H2 Heq.
    apply Hold in H1 as (y1 & Hy1 & _ & _ & Ht1).
    apply Hold in H2 as (y2 & Hy2 & _ & _ & Ht2).
    apply (Ht k1 k2 y1 y2 Hy1 Hy2). congruence.
Qed.

Lemma findOne_None P db k s :
  findOne P db = None → sessions db !! k = Some s → P s = false.
Proof.
  unfold findOne.
  destruct (List.find _ (map_to_list (sessions db))) as [kv|] eqn:Hfind;
    [done|].
  intros _ Hk.
  apply (find_none _ _ Hfind (k, s)).
  by apply list_elem_of_In, elem_of_map_to_list.
Qed.

(** A new document under a fresh id, with a payment reference and a token
    no stored document has. *)
Lemma insertSession_wellFormed db db' s :
  wellFormed db →
  sessions db !! _id s = None →
  insertSession s db = Ok db' →
  db' = saveSession s db ∧ wellFormed db'.
Proof.
  intros [Hk Hr Ht] Hfresh. unfold insertSession.
  destruct (findOne _ db) as [s0|] eqn:Hfind; [done|].
  intros [= <-]. split; [done|].
  assert (∀ k x, sessions db !! k = Some x →
            paymentReference x ≠ paymentReference s
            ∧ sessionToken x ≠ sessionToken s) as Hnew.
  { intros k x Hx. pose proof (findOne_None _ _ _ _ Hfind Hx) as Hno.
    simpl in Hno. apply orb_false_iff in Hno as [H1 H2].
    apply bool_decide_eq_false in H1, H2. done. }
  assert (∀ k x, sessions (saveSession s db) !! k = Some x →
            (k = _id s ∧ x = s) ∨ (k ≠ _id s ∧ sessions db !! k = Some x))
    as Hcases.
  { intros k x. unfold saveSession. simpl.
    destruct (decide (_id s = k)) as [<-|Hne].
    - rewrite lookup_insert_eq. intros [= <-]. by left.
    - rewrite lookup_insert_ne by done. intros Hx. right. by split. }
  split.
  - intros k x Hx. apply Hcases in Hx as [[-> ->]|[_ Hx]]; [done|].
    by apply Hk.
  - intros k1 k2 x1 x2 H1 H2 Heq.
    apply Hcases in H1 as [[-> ->]|[_ H1]];
      apply Hcases in H2 as [[-> ->]|[_ H2]].
    + done.
    + destruct (Hnew _ _ H2) as [Hne _]. by rewrite Heq in Hne.
    + destruct (Hnew _ _ H1) as [Hne _]. by rewrite Heq in Hne.
    + by apply (Hr k1 k2 x1 x2).
  - intros k1 k2 x1 x2 H1 H2 Heq.
    apply Hcases in H1 as [[-> ->]|[_ H1]];
      apply Hcases in H2 as [[-> ->]|[_ H2]].
    + done.
    + destruct (Hnew _ _ H2) as [_ Hne]. by rewrite Heq in Hne.
    + destruct (Hnew _ _ H1) as [_ Hne]. by rewrite Heq in Hne.
    + by apply (Ht k1 k2 x1 x2).
Qed.

Lemma deleteSession_wellFormed db id :
  wellFormed db → wellFormed (deleteSession id db).
Proof.
  intros [Hk Hr Ht].
  assert (∀ k x, sessions (deleteSession id db) !! k = Some x →
            sessions db !! k = Some x) as Hold.
  { intros k x. unfold deleteSession. simpl.
    destruct (decide (id = k)) as [<-|Hne].
    - by rewrite lookup_delete_eq.
    - by rewrite lookup_delete_ne. }
  split.
  - intros k x Hx. by apply Hk, Hold.
  - intros k1 k2 x1 x2 H1 H2. apply (Hr k1 k2 x1 x2); by apply Hold.
  - intros k1 k2 x1 x2 H1 H2. apply (Ht k1 k2 x1 x2); by apply Hold.
Qed.

Lemma findOne_stored P db s :
  wellFormed db → findOne P db = Some s →
  sessions db !! _id s = Some s ∧ P s = true.
Proof.
  intros Hwf Hfind. apply findOne_Some in Hfind as [HP [k Hk]].
  split; [|done]. by rewrite (wf_keyed db Hwf k s Hk).
Qed.

Lemma sessionOfReference_stored reference db s :
  wellFormed db → sessionOfReference reference db = Some s →
  sessions db !! _id s = Some s.
Proof.
  intros Hwf. unfold sessionOfReference.
  destruct (isExtensionReference reference).
  - destruct (split "_" reference) as [|? [|sessionId ?]]; try done.
    unfold findById. intros Hs.
    by rewrite (wf_keyed db Hwf sessionId s Hs).
  - intros Hfind. by apply (findOne_stored _ _ _ Hwf Hfind).
Qed.

Lemma extendSession_identity now h ref s s' :
  extendSession now h ref s = Ok s' →
  _id s' = _id s ∧ paymentReference s' = paymentReference s
  ∧ sessionToken s' = sessionToken s ∧ clientId s' = clientId s.
Proof.
  unfold extendSession.
  case_bool_decide; [done|]. case_bool_decide; [done|]. by intros [= <-].
Qed.

Lemma startSession_identity now s s' :
  startSession now s = Ok s' →
  _id s' = _id s ∧ paymentReference s' = paymentReference s
  ∧ sessionToken s' = sessionToken s ∧ clientId s' = clientId s.
Proof.
  unfold startSession. case_bool_decide; [done|]. by intros [= <-].
Qed.

Lemma booking_wellFormed sign body oid uuid paystack now db :
  wellFormed db → sessions db !! oid = None →
  wellFormed (initializeConsultationPayment sign body oid uuid paystack now db).1.
Proof.
  intros Hwf Hfresh. unfold initializeConsultationPayment.
  destruct (b_professionalId body) as [pid|]; [|done].
  destruct (b_clientId body) as [cid|]; [|done].
  destruct (b_durationHours body) as [hours|]; [|done].
  destruct (negb _ || _ || _); [done|].
  case_bool_decide; [done|]. case_bool_decide; [done|].
  destruct (clients db !! cid) as [c|]; [|done].
  destruct (insertSession _ db) as [db1|e] eqn:Hins; [|done].
  apply insertSession_wellFormed in Hins as [_ Hwf1]; [|done|done].
  destruct paystack as [[|]|e]; simpl; try done.
  by apply deleteSession_wellFormed.
Qed.

Lemma verification_wellFormed reference paystack now db :
  wellFormed db →
  wellFormed (verifyConsultationPayment reference paystack now db).1.
Proof.
  intros Hwf. unfold verifyConsultationPayment.
  case_bool_decide; [done|].
  destruct (sessionOfReference reference db) as [s|] eqn:Hs; [|done].
  pose proof (sessionOfReference_stored _ _ _ Hwf Hs) as Hstored.
  destruct paystack as [pv|e]; [|done].
  destruct (negb _ || _); [done|].
  destruct (isExtensionReference reference).
  - destruct (extendSession _ _ _ s) as [s'|e] eqn:Hext; [|done].
    apply extendSession_identity in Hext as (Hid & Href & Htok & _).
    by apply (saveSession_wellFormed db s' s).
  - case_bool_decide; [done|].
    destruct (startSession _ _) as [s'|e] eqn:Hstart; [|done].
    apply startSession_identity in Hstart as (Hid & Href & Htok & _).
    apply (wellFormed_sessions (saveSession s' db)); [done|].
    by apply (saveSession_wellFormed db s' s).
Qed.

Lemma status_query_wellFormed sessionId authorization now db :
  wellFormed db →
  wellFormed (getSessionStatus sessionId authorization now db).1.
Proof.
  intros Hwf. unfold getSessionStatus.
  destruct (negb _); [done|].
  unfold findByIdParam.
  destruct (findById sessionId db) as [s|] eqn:Hs;
    [|by destruct (isValidObjectId sessionId)].
  case_bool_decide; [done|].
  destruct (isExpired now s && _); [|done].
  apply (wellFormed_sessions (saveSession (withStatus expired s) db)); [done|].
  apply (saveSession_wellFormed db _ s); try done.
  unfold findById in Hs. by rewrite (wf_keyed db Hwf sessionId s Hs).
Qed.

Lemma chat_wellFormed sk sessionId content mid now srv db :
  wellFormed db →
  wellFormed (consultationMessage sk sessionId content mid now srv db).1.
Proof.
  intros Hwf. unfold consultationMessage.
  destruct content as [content|]; [|done].
  destruct (negb _ || _ || _); [done|].
  destruct (findById sessionId db) as [s|] eqn:Hs; [|done].
  destruct (bool_decide (status s ≠ active) && _); [done|].
  destruct (match endsAt s with Some _ => _ | None => _ end); [done|].
  destruct (senderOf _ _ _) as [[senderId senderType]|]; [|done].
  destruct (negb (truthyStr senderId)); [done|].
  apply (saveSession_wellFormed _ _ s); try done.
  - by apply (wellFormed_sessions db).
  - unfold findById in Hs. simpl.
    by rewrite (wf_keyed db Hwf sessionId s Hs).
Qed.

Lemma join_wellFormed sk token now srv db :
  wellFormed db → wellFormed (joinConsultation sk token now srv db).1.1.
Proof.
  intros Hwf. unfold joinConsultation.
  destruct (findOne _ db) as [s|] eqn:Hs; [|done].
  destruct (isExpired now s); [done|].
  case_bool_decide; [|done].
  apply (saveSession_wellFormed db _ s); try done.
  by apply (findOne_stored _ _ _ Hwf Hs).
Qed.

Lemma review_wellFormed professionalId' body db :
  wellFormed db → wellFormed (submitReview professionalId' body db).1.
Proof.
  intros Hwf. unfold submitReview.
  destruct (negb (reviewSchema body)); [done|].
  destruct (r_sessionId body) as [sessionId|]; [|done].
  destruct (r_sessionToken body) as [token|]; [|done].
  destruct (r_clientName body) as [clientName|]; [|done].
  destruct (r_rating body) as [rating|]; [|done].
  destruct (findOne _ db) as [s|]; [|done].
  case_bool_decide; [done|].
  destruct (findReview _ db); [done|].
  by apply (wellFormed_sessions db).
Qed.

(** X5.  Every handler that writes sessions keeps the store well formed:
    each document stays under its own [_id], and no two documents come to
    share a [paymentReference] or a [sessionToken].  (Booking stores its
    document under a fresh [ObjectId].) *)
Theorem handlers_keep_wellFormed db :
  wellFormed db →
  (∀ sign body oid uuid paystack now,
     sessions db !! oid = None →
     wellFormed (initializeConsultationPayment sign body oid uuid paystack now db).1)
  ∧ (∀ reference paystack now,
       wellFormed (verifyConsultationPayment reference paystack now db).1)
  ∧ (∀ sessionId authorization now,
       wellFormed (getSessionStatus sessionId authorization now db).1)
  ∧ (∀ sk sessionId content mid now srv,
       wellFormed (consultationMessage sk sessionId content mid now srv db).1)
  ∧ (∀ sk token now srv,
       wellFormed (joinConsultation sk token now srv db).1.1)
  ∧ (∀ professionalId' body,
       wellFormed (submitReview professionalId' body db).1).
Proof.
  intros Hwf. split; [|split; [|split; [|split; [|split]]]].
  - intros sign body oid uuid paystack now Hfresh.
    by apply booking_wellFormed.
  - intros reference paystack now. by apply verification_wellFormed.
  - intros sessionId authorization now. by apply status_query_wellFormed.
  - intros sk sessionId content mid now srv. by apply chat_wellFormed.
  - intros sk token now srv. by apply join_wellFormed.
  - intros professionalId' body. by apply review_wellFormed.
Qed.

Lemma dbEmpty_wellFormed : wellFormed dbEmpty.
Proof. split; intros *; simpl; by rewrite lookup_empty. Qed.

Lemma dbBooked_wellFormed : wellFormed dbBooked.
Proof. by apply booking_wellFormed; [apply dbEmpty_wellFormed|]. Qed.

Lemma handlers_keep_wellFormed_witness :
  wellFormed dbBooked ∧ wellFormed dbActive.
Proof.
  destruct (handlers_keep_wellFormed dbEmpty dbEmpty_wellFormed)
    as (Hbook & _).
  assert (wellFormed dbBooked) as Hwf.
  { apply (Hbook demoSign oneHour "s1" "u1" (Ok true) 1000). reflexivity. }
  split; [exact Hwf|].
  destruct (handlers_keep_wellFormed dbBooked Hwf) as (_ & Hverify & _).
  apply (Hverify "CONSULT_u1" (Ok paidOneHour) 2000).
Defined.

(** ** Booking *)

Lemma findOne_unique P db s :
  (∃ k, sessions db !! k = Some s) → P s = true →
  (∀ k x, sessions db !! k = Some x → P x = true → x = s) →
  findOne P db = Some s.
Proof.
  intros [k Hk] HP Huniq.
  destruct (findOne P db) as [x|] eqn:Hfind.
  - apply findOne_Some in Hfind as [HPx [k' Hk']]. f_equal. by apply (Huniq k').
  - pose proof (findOne_None _ _ _ _ Hfind Hk). congruence.
Qed.

(** What an accepted booking has done. *)
Lemma booking_accepted sign body oid uuid paystack now db d :
  data (initializeConsultationPayment sign body oid uuid paystack now db).2
  = Some d →
  ∃ pid cid hours c,
    body = mkInitBody (Some pid) (Some cid) (Some hours) (b_email body)
    ∧ clients db !! cid = Some c
    ∧ MINIMUM_HOURS ≤ hours ≤ MAXIMUM_HOURS
    ∧ paystack = Ok true
    ∧ d = mkInitData oid ("CONSULT_" +:+ uuid)
                     (sign (bookingTokenClaims cid (Client.username c) pid now))
                     hours (Client.username c)
    ∧ insertSession
        (newSession oid pid cid (Client.username c) ("CONSULT_" +:+ uuid)
                    (sign (bookingTokenClaims cid (Client.username c) pid now))
                    hours) db
      = Ok (initializeConsultationPayment sign body oid uuid paystack now db).1
    ∧ (initializeConsultationPayment sign body oid uuid paystack now db).1
      = saveSession
          (newSession oid pid cid (Client.username c) ("CONSULT_" +:+ uuid)
                      (sign (bookingTokenClaims cid (Client.username c) pid now))
                      hours) db.
Proof.
  unfold initializeConsultationPayment. destruct body as [[pid|] [cid|] [hours|] email];
    simpl; try done.
  destruct (negb _ || _ || _); [done|].
  case_bool_decide as Hmin; [done|]. case_bool_decide as Hmax; [done|].
  destruct (clients db !! cid) as [c|] eqn:Hc; [|done].
  destruct (insertSession _ db) as [db1|e] eqn:Hins; [|done].
  destruct paystack as [[|]|e]; simpl; try done.
  intros [= <-]. exists pid, cid, hours, c.
  repeat split; try done; try lia.
  unfold insertSession in Hins. destruct (findOne _ db); [done|].
  by injection Hins as <-.
Qed.

Lemma booking_reference_designates sign body oid uuid paystack now db d :
  data (initializeConsultationPayment sign body oid uuid paystack now db).2
  = Some d →
  sessionOfReference (i_reference d)
    (initializeConsultationPayment sign body oid uuid paystack now db).1
  = findById oid
      (initializeConsultationPayment sign body oid uuid paystack now db).1.
Proof.
  intros Hd.
  destruct (booking_accepted _ _ _ _ _ _ _ _ Hd)
    as (pid & cid & hours & c & Hbody & Hc & Hrange & _ & -> & Hins & Hdb).
  rewrite Hdb. unfold findById at 1. simpl. rewrite lookup_insert_eq.
  unfold sessionOfReference.
  change (isExtensionReference ("CONSULT_" +:+ uuid)) with false.
  cbv iota. apply findOne_unique.
  - exists oid. unfold saveSession. simpl. apply lookup_insert_eq.
  - simpl. by apply bool_decide_eq_true.
  - intros k x. unfold saveSession. simpl.
    destruct (decide (oid = k)) as [<-|Hne].
    + rewrite lookup_insert_eq. by intros [= <-].
    + rewrite lookup_insert_ne by done. intros Hx HP. exfalso.
      rewrite Hdb in Hins. unfold insertSession in Hins.
      destruct (findOne _ db) eqn:Hfind; [done|].
      pose proof (findOne_None _ _ _ _ Hfind Hx) as Hno. simpl in Hno.
      apply orb_false_iff in Hno as [Hno _].
      apply bool_decide_eq_true in HP. apply bool_decide_eq_false in Hno.
      done.
Qed.

(** X6.  An accepted booking has stored, under the fresh id, a session
    that is ['pending'] and unpaid, has neither start nor expiry, lasts
    the booked number of hours (between 1 and 8) and costs the hourly
    price for each of them; the reference it hands out designates that
    session, and no other session is touched. *)
Theorem booking_stores_pending_session sign body oid uuid paystack now db d :
  data (initializeConsultationPayment sign body oid uuid paystack now db).2
  = Some d →
  ∃ s,
    findById oid (initializeConsultationPayment sign body oid uuid paystack now db).1
    = Some s
    ∧ i_sessionId d = oid
    ∧ status s = pending ∧ paymentStatus s = PayPending
    ∧ startedAt s = None ∧ expiresAt s = None ∧ extensions s = []
    ∧ paymentReference s = i_reference d
    ∧ sessionToken s = i_sessionToken d
    ∧ b_durationHours body = Some (i_durationHours d)
    ∧ 1 ≤ i_durationHours d ≤ 8
    ∧ currentDuration s = i_durationHours d * HOUR_MS
    ∧ paymentAmount s = i_durationHours d * DEFAULT_PRICE_PER_HOUR
    ∧ sessionOfReference (i_reference d)
        (initializeConsultationPayment sign body oid uuid paystack now db).1
      = Some s
    ∧ ∀ k, k ≠ oid →
        findById k (initializeConsultationPayment sign body oid uuid paystack now db).1
        = findById k db.
Proof.
  intros Hd.
  pose proof (booking_reference_designates _ _ _ _ _ _ _ _ Hd) as Href.
  destruct (booking_accepted _ _ _ _ _ _ _ _ Hd)
    as (pid & cid & hours & c & Hbody & Hc & Hrange & _ & Hdd & Hins & Hdb).
  rewrite Href. rewrite Hdb. rewrite Hbody, Hdd. eexists. split.
  { unfold findById, saveSession. simpl. apply lookup_insert_eq. }
  simpl. unfold MINIMUM_HOURS, MAXIMUM_HOURS, HOUR_MS in *.
  repeat split; try done; try lia.
  - unfold findById, saveSession. simpl. apply lookup_insert_eq.
  - intros k Hne. unfold findById, saveSession. simpl.
    by rewrite lookup_insert_ne.
Qed.

Lemma booking_stores_pending_session_witness :
  ∃ s, findById "s1" dbBooked = Some s
       ∧ status s = pending
       ∧ currentDuration s = 1 * HOUR_MS
       ∧ sessionOfReference "CONSULT_u1" dbBooked = Some s.
Proof.
  destruct (booking_stores_pending_session demoSign oneHour "s1" "u1"
              (Ok true) 1000 dbEmpty
              (mkInitData "s1" "CONSULT_u1" "jwt.ada" 1 "ada") eq_refl)
    as (s & Hs & _ & Hst & _ & _ & _ & _ & _ & _ & _ & _ & Hdur & _ & Href & _).
  exists s. split; [exact Hs|]. split; [exact Hst|].
  split; [exact Hdur | exact Href].
Defined.

(** X7.  A booking that is answered 400 or 404 leaves the store as it
    was: nothing is written for a missing field, an hour count outside 1
    to 8 or an unknown client, and the session saved before the gateway
    call is deleted again when the gateway refuses the payment. *)
Theorem booking_refused_leaves_store sign body oid uuid paystack now db :
  sessions db !! oid = None →
  code (initializeConsultationPayment sign body oid uuid paystack now db).2 = 400
  ∨ code (initializeConsultationPayment sign body oid uuid paystack now db).2 = 404 →
  (initializeConsultationPayment sign body oid uuid paystack now db).1 = db.
Proof.
  intros Hfresh. unfold initializeConsultationPayment.
  destruct (b_professionalId body) as [pid|]; [|done].
  destruct (b_clientId body) as [cid|]; [|done].
  destruct (b_durationHours body) as [hours|]; [|done].
  destruct (negb _ || _ || _); [done|].
  case_bool_decide; [done|]. case_bool_decide; [done|].
  destruct (clients db !! cid) as [c|]; [|done].
  destruct (insertSession _ db) as [db1|e] eqn:Hins; [|done].
  unfold insertSession in Hins. destruct (findOne _ db); [done|].
  injection Hins as <-.
  destruct paystack as [[|]|e]; simpl.
  - intros [|]; discriminate.
  - intros _. unfold deleteSession, saveSession. simpl.
    rewrite delete_insert_eq, delete_id by done. by destruct db.
  - intros [|]; discriminate.
Qed.

Lemma booking_refused_leaves_store_witness :
  (initializeConsultationPayment demoSign oneHour "s1" "u1" (Ok false) 1000
                                 dbEmpty).1 = dbEmpty
  ∧ (initializeConsultationPayment demoSign
       (mkInitBody (Some "p1") (Some "c1") (Some 9) None) "s1" "u1" (Ok true)
       1000 dbEmpty).1 = dbEmpty.
Proof.
  split.
  - apply (booking_refused_leaves_store demoSign oneHour "s1" "u1" (Ok false)
             1000 dbEmpty); [reflexivity | left; reflexivity].
  - apply (booking_refused_leaves_store demoSign
             (mkInitBody (Some "p1") (Some "c1") (Some 9) None) "s1" "u1"
             (Ok true) 1000 dbEmpty); [reflexivity | left; reflexivity].
Defined.

(** X8.  When the gateway call of a booking throws, the handler answers
    500 and the session it saved just before stays in the store, exactly
    as an accepted booking leaves it. *)
Theorem booking_gateway_error_keeps_session sign body oid uuid now db d e :
  data (initializeConsultationPayment sign body oid uuid (Ok true) now db).2
  = Some d →
  code (initializeConsultationPayment sign body oid uuid (Throw e) now db).2 = 500
  ∧ (initializeConsultationPayment sign body oid uuid (Throw e) now db).1
    = (initializeConsultationPayment sign body oid uuid (Ok true) now db).1
  ∧ ∃ s, findById oid
           (initializeConsultationPayment sign body oid uuid (Throw e) now db).1
         = Some s
         ∧ status s = pending ∧ paymentStatus s = PayPending.
Proof.
  intros Hd.
  assert (∃ s, findById oid
                 (initializeConsultationPayment sign body oid uuid (Ok true) now db).1
               = Some s ∧ status s = pending ∧ paymentStatus s = PayPending)
    as (s & Hs & Hst & Hpay).
  { destruct (booking_accepted _ _ _ _ _ _ _ _ Hd)
      as (pid & cid & hours & c & _ & _ & _ & _ & _ & _ & Hdb).
    rewrite Hdb. eexists.
    split; [unfold findById, saveSession; simpl; apply lookup_insert_eq | done]. }
  assert ((initializeConsultationPayment sign body oid uuid (Throw e) now db).1
          = (initializeConsultationPayment sign body oid uuid (Ok true) now db).1
          ∧ code (initializeConsultationPayment sign body oid uuid (Throw e) now db).2
            = 500) as [Heq Hcode].
  { revert Hd. unfold initializeConsultationPayment.
    destruct (b_professionalId body) as [pid|]; [|done].
    destruct (b_clientId body) as [cid|]; [|done].
    destruct (b_durationHours body) as [hours|]; [|done].
    destruct (negb _ || _ || _); [done|].
    case_bool_decide; [done|]. case_bool_decide; [done|].
    destruct (clients db !! cid) as [c|]; [|done].
    by destruct (insertSession _ db) as [db1|e']. }
  split; [done|]. split; [done|]. exists s. rewrite Heq. by repeat split.
Qed.

Lemma booking_gateway_error_keeps_session_witness :
  code (initializeConsultationPayment demoSign oneHour "s1" "u1"
          (Throw "ECONNRESET") 1000 dbEmpty).2 = 500
  ∧ (initializeConsultationPayment demoSign oneHour "s1" "u1"
       (Throw "ECONNRESET") 1000 dbEmpty).1 = dbBooked.
Proof.
  destruct (booking_gateway_error_keeps_session demoSign oneHour "s1" "u1"
              1000 dbEmpty (mkInitData "s1" "CONSULT_u1" "jwt.ada" 1 "ada")
              "ECONNRESET" eq_refl) as (Hcode & Hdb & _).
  split; [exact Hcode | exact Hdb].
Defined.

(** ** Payment verification *)

(** X9.  A verification that is not answered 200 (missing reference,
    unknown session, gateway error, payment not successful, extension
    refused by the model) writes nothing. *)
Theorem verification_failure_writes_nothing reference paystack now db :
  code (verifyConsultationPayment reference paystack now db).2 ≠ 200 →
  (verifyConsultationPayment reference paystack now db).1 = db.
Proof.
  unfold verifyConsultationPayment.
  case_bool_decide; [done|].
  destruct (sessionOfReference reference db) as [s|]; [|done].
  destruct paystack as [pv|e]; [|done].
  destruct (negb _ || _); [done|].
  destruct (isExtensionReference reference).
  - by destruct (extendSession _ _ _ s).
  - case_bool_decide; [done|]. by destruct (startSession _ _).
Qed.

Lemma verification_failure_writes_nothing_witness :
  (verifyConsultationPayment "CONSULT_u1" (Throw "ETIMEDOUT") 2000 dbBooked).1
  = dbBooked
  ∧ (verifyConsultationPayment "CONSULT_u1"
       (Ok (mkPaystackVerify true ChargeFailed 1500 None)) 2000 dbBooked).1
    = dbBooked.
Proof.
  split.
  - apply (verification_failure_writes_nothing "CONSULT_u1" (Throw "ETIMEDOUT")
             2000 dbBooked). discriminate.
  - apply (verification_failure_writes_nothing "CONSULT_u1"
             (Ok (mkPaystackVerify true ChargeFailed 1500 None)) 2000 dbBooked).
    discriminate.
Defined.

(** X10.  Booking followed by the successful verification of the
    reference the booking handed out: the session is ['active'] and paid,
    started at the instant of the verification, expires exactly the booked
    hours later, [isActive] holds, the whole duration remains, and the
    client's two session counters have gone up by one. *)
Theorem booking_then_verification sign body oid uuid now db d pv now' :
  data (initializeConsultationPayment sign body oid uuid (Ok true) now db).2
  = Some d →
  pv_status pv = true → pv_dataStatus pv = ChargeSuccess →
  let db1 := (initializeConsultationPayment sign body oid uuid (Ok true) now db).1 in
  code (verifyConsultationPayment (i_reference d) (Ok pv) now' db1).2 = 200
  ∧ ∃ s cid,
      findById oid (verifyConsultationPayment (i_reference d) (Ok pv) now' db1).1
      = Some s
      ∧ status s = active ∧ paymentStatus s = PayCompleted
      ∧ paidAt s = Some (pv_paidAt pv)
      ∧ startedAt s = Some now'
      ∧ expiresAt s = Some (now' + i_durationHours d * HOUR_MS)
      ∧ isActive now' s = true
      ∧ getRemainingTime now' s = i_durationHours d * HOUR_MS
      ∧ b_clientId body = Some cid
      ∧ ∀ c, clients db !! cid = Some c →
          clients (verifyConsultationPayment (i_reference d) (Ok pv) now' db1).1
            !! cid
          = Some (Client.mk (Client.username c) (Client.totalSessions c + 1)
                            (Client.activeSessions c + 1)).
Proof.
  intros Hd Hok Hcharge db1.
  pose proof (booking_reference_designates _ _ _ _ _ _ _ _ Hd) as Href.
  destruct (booking_accepted _ _ _ _ _ _ _ _ Hd)
    as (pid & cid & hours & c & Hbody & Hc & Hrange & _ & Hdd & _ & Hdb).
  fold db1 in Href, Hdb.
  assert (findById oid db1
          = Some (newSession oid pid cid (Client.username c)
                    ("CONSULT_" +:+ uuid)
                    (sign (bookingTokenClaims cid (Client.username c) pid now))
                    hours)) as Hnew.
  { rewrite Hdb. unfold findById, saveSession. simpl. apply lookup_insert_eq. }
  rewrite Hnew in Href.
  unfold verifyConsultationPayment.
  rewrite bool_decide_eq_false_2 by (rewrite Hdd; discriminate).
  rewrite Href, Hok, Hcharge. simpl.
  replace (isExtensionReference (i_reference d)) with false by (by rewrite Hdd).
  simpl. split; [done|].
  eexists _, cid. split.
  { unfold findById, incClient, saveSession. simpl. apply lookup_insert_eq. }
  simpl. rewrite Hdd. simpl.
  unfold MINIMUM_HOURS, MAXIMUM_HOURS, HOUR_MS in *.
  repeat split; try done.
  - unfold isActive, isExpired. simpl.
    rewrite bool_decide_eq_false_2 by lia. done.
  - unfold getRemainingTime. simpl. lia.
  - by rewrite Hbody.
  - intros c' Hc'. rewrite Hdb. simpl. rewrite lookup_alter_eq, Hc'. done.
Qed.

Lemma booking_then_verification_witness :
  ∃ s, findById "s1" dbActive = Some s
       ∧ status s = active
       ∧ startedAt s = Some 2000
       ∧ expiresAt s = Some (2000 + 1 * HOUR_MS)
       ∧ isActive 2000 s = true.
Proof.
  destruct (booking_then_verification demoSign oneHour "s1" "u1" 1000 dbEmpty
              (mkInitData "s1" "CONSULT_u1" "jwt.ada" 1 "ada") paidOneHour 2000
              eq_refl eq_refl eq_refl)
    as (_ & s & cid & Hs & Hst & _ & _ & Hstart & Hexp & Hact & _).
  exists s. split; [exact Hs|]. split; [exact Hst|]. split; [exact Hstart|].
  split; [exact Hexp | exact Hact].
Defined.

(** X11.  The verification of an original charge is idempotent on a well
    formed store: once it has been answered 200, the same reference
    verified again, at any later instant and whatever the gateway then
    reports as paid, is answered "Payment already verified" and writes
    nothing, so the session is started once and the client's counters are
    raised once. *)
Theorem verification_replay_writes_nothing reference pv pv' now now' db s :
  wellFormed db →
  reference ≠ "" →
  isExtensionReference reference = false →
  sessionOfReference reference db = Some s →
  pv_status pv = true → pv_dataStatus pv = ChargeSuccess →
  pv_status pv' = true → pv_dataStatus pv' = ChargeSuccess →
  let first := verifyConsultationPayment reference (Ok pv) now db in
  code first.2 = 200
  ∧ (verifyConsultationPayment reference (Ok pv') now' first.1).1 = first.1
  ∧ message (verifyConsultationPayment reference (Ok pv') now' first.1).2
    = "Payment already verified".
Proof.
  intros Hwf Hne Hkind Hs Hok Hcharge Hok' Hcharge' first.
  destruct (decide (paymentStatus s = PayCompleted)) as [Hpaid|Hunpaid].
  - subst first.
    rewrite (verify_completed_is_noop _ _ now _ _ Hne Hkind Hs Hpaid Hok Hcharge).
    simpl.
    by rewrite (verify_completed_is_noop _ _ now' _ _ Hne Hkind Hs Hpaid Hok'
                  Hcharge').
  - pose proof (sessionOfReference_stored _ _ _ Hwf Hs) as Hstored.
    assert (paymentReference s = reference) as Href.
    { revert Hs. unfold sessionOfReference. rewrite Hkind. intros Hs.
      apply findOne_Some in Hs as [HP _]. by apply bool_decide_eq_true in HP. }
    destruct (startSession_paid now (markPaid (pv_paidAt pv) s) eq_refl)
      as (s' & Hstart & _).
    pose proof (startSession_identity _ _ _ Hstart) as (Hid & Hr & _).
    assert (paymentStatus s' = PayCompleted) as Hpaid'.
    { revert Hstart. unfold startSession. simpl. by intros [= <-]. }
    assert (first = (incClient (clientId s') 1 1 (saveSession s' db),
                     answer "Payment verified and session activated"
                            (verifyData now s'))) as Hfirst.
    { subst first. unfold verifyConsultationPayment.
      rewrite bool_decide_eq_false_2 by done.
      rewrite Hs, Hok, Hcharge, Hkind.
      change (negb true || negb (bool_decide (ChargeSuccess = ChargeSuccess)))
        with false. cbv iota.
      rewrite bool_decide_eq_false_2 by done. by rewrite Hstart. }
    rewrite Hfirst. simpl. split; [done|].
    assert (sessionOfReference reference
              (incClient (clientId s') 1 1 (saveSession s' db)) = Some s')
      as Hs'.
    { unfold sessionOfReference. rewrite Hkind. apply findOne_unique.
      - exists (_id s'). simpl. apply lookup_insert_eq.
      - apply bool_decide_eq_true. simpl in Hr. congruence.
      - intros k x. simpl.
        destruct (decide (_id s' = k)) as [<-|Hk].
        + rewrite lookup_insert_eq. by intros [= <-].
        + rewrite lookup_insert_ne by done. intros Hx HP. exfalso.
          apply bool_decide_eq_true in HP. apply Hk.
          simpl in Hid. rewrite Hid.
          apply (wf_references db Hwf (_id s) k s x Hstored Hx). congruence. }
    by rewrite (verify_completed_is_noop _ _ now' _ _ Hne Hkind Hs' Hpaid' Hok'
                  Hcharge').
Qed.

Lemma verification_replay_writes_nothing_witness :
  code (verifyConsultationPayment "CONSULT_u1" (Ok paidOneHour) 2000 dbBooked).2
  = 200
  ∧ (verifyConsultationPayment "CONSULT_u1" (Ok paidOneHour) 7000 dbActive).1
    = dbActive.
Proof.
  destruct (verification_replay_writes_nothing "CONSULT_u1" paidOneHour
              paidOneHour 2000 7000 dbBooked (sessionOf dbBooked)
              dbBooked_wellFormed
              ltac:(discriminate) eq_refl eq_refl eq_refl eq_refl eq_refl eq_refl)
    as (Hcode & Hsame & _).
  split; [exact Hcode | exact Hsame].
Defined.

(** ** Extension references *)

Lemma split_head a rest :
  noUnderscore a = true →
  split "_" (a +:+ String "_" rest) = a :: split "_" rest.
Proof.
  induction a as [|c a IH]; simpl; [done|].
  intros H. apply andb_true_iff in H as [Hc Ha].
  apply negb_true_iff in Hc. rewrite Hc. by rewrite (IH Ha).
Qed.

Lemma isExtensionReference_EXTEND rest :
  isExtensionReference ("EXTEND_" +:+ rest) = true.
Proof. unfold isExtensionReference. simpl. by destruct rest. Qed.

Lemma extension_reference_designates sessionId uuid db :
  noUnderscore sessionId = true →
  sessionOfReference ("EXTEND_" +:+ sessionId +:+ "_" +:+ uuid) db
  = findById sessionId db.
Proof.
  intros Hid. unfold sessionOfReference.
  rewrite isExtensionReference_EXTEND.
  change ("EXTEND_" +:+ sessionId +:+ "_" +:+ uuid)
    with ("EXTEND" +:+ String "_" (sessionId +:+ String "_" uuid)).
  rewrite split_head by done. by rewrite split_head.
Qed.

(** What a priced extension has checked. *)
Lemma extension_quoted body uuid paystack now db d :
  data (initializeSessionExtension body uuid paystack now db) = Some d →
  ∃ sessionId h s,
    e_sessionId body = Some sessionId
    ∧ e_additionalHours body = Some h
    ∧ findById sessionId db = Some s
    ∧ status s = active
    ∧ isExpired now s = false
    ∧ 1 ≤ h
    ∧ d = mkExtendData ("EXTEND_" +:+ sessionId +:+ "_" +:+ uuid)
                       (inject_Z (h * pricePerHour s) / 100) h (expiresAt s).
Proof.
  unfold initializeSessionExtension.
  destruct (e_sessionId body) as [sessionId|]; [|done].
  destruct (e_additionalHours body) as [h|]; [|done].
  destruct (negb _ || _); [done|].
  case_bool_decide as Hh; [done|].
  unfold findByIdParam.
  destruct (findById sessionId db) as [s|] eqn:Hs;
    [|by destruct (isValidObjectId sessionId)].
  case_bool_decide as Hst; [done|].
  destruct (isExpired now s) eqn:Hexp; [done|].
  destruct paystack as [[|]|e]; simpl; try done.
  intros [= <-]. exists sessionId, h, s.
  repeat split; try done; try lia.
Qed.

(** X12.  An extension is priced only for a stored session that is
    ['active'] and not past its expiry, for at least one hour; the cost
    the reply quotes is the hourly price for each hour, converted from
    kobo to naira; the reference handed out is an extension reference
    and, the session id having no ['_'] in it, designates that very
    session at verification. *)
Theorem extension_quote_gate body uuid paystack now db d :
  data (initializeSessionExtension body uuid paystack now db) = Some d →
  ∃ sessionId s,
    e_sessionId body = Some sessionId
    ∧ e_additionalHours body = Some (x_additionalHours d)
    ∧ findById sessionId db = Some s
    ∧ status s = active
    ∧ (∀ e, expiresAt s = Some e → now ≤ e)
    ∧ 1 ≤ x_additionalHours d
    ∧ (x_extensionCost d
       == inject_Z (calculateExtensionCost s (x_additionalHours d)) / 100)%Q
    ∧ x_currentExpiresAt d = expiresAt s
    ∧ isExtensionReference (x_reference d) = true
    ∧ (noUnderscore sessionId = true →
       sessionOfReference (x_reference d) db = Some s).
Proof.
  intros Hd.
  destruct (extension_quoted _ _ _ _ _ _ Hd)
    as (sessionId & h & s & Hsid & Hh & Hs & Hst & Hlive & Hone & ->).
  exists sessionId, s. simpl. repeat split; try done.
  - by apply isExpired_false.
  - apply isExtensionReference_EXTEND.
  - intros Hid. by rewrite extension_reference_designates.
Qed.

Lemma extension_quote_gate_witness :
  ∃ s, findById "s1" dbActive = Some s
       ∧ status s = active
       ∧ sessionOfReference "EXTEND_s1_u9" dbActive = Some s.
Proof.
  destruct (extension_quote_gate (mkExtendBody (Some "s1") (Some 2) None) "u9"
              (Ok true) 3500000 dbActive
              (mkExtendData "EXTEND_s1_u9" (inject_Z 10000 / 100) 2
                            (Some 3602000)) eq_refl)
    as (sessionId & s & Hsid & _ & Hs & Hst & _ & _ & _ & _ & _ & Href).
  injection Hsid as <-.
  exists s. split; [exact Hs|]. split; [exact Hst|].
  apply Href. reflexivity.
Defined.

(** X13.  What is quoted is what is charged: when the reference of a
    priced extension is verified with the hours that were priced, and the
    new expiry is within the range of a [Date], the session it was priced
    for is saved with one more extension record, its amount paid raised
    by the quoted cost (a hundred kobo for each naira quoted) and, its
    expiry not being the epoch, the priced hours added to its expiry. *)
Theorem extension_quote_then_verification body uuid now db d pv now' :
  wellFormed db →
  data (initializeSessionExtension body uuid (Ok true) now db) = Some d →
  (∀ sessionId, e_sessionId body = Some sessionId →
                noUnderscore sessionId = true) →
  (∀ sessionId s, e_sessionId body = Some sessionId →
                  findById sessionId db = Some s →
                  expiryOrNow now' s + x_additionalHours d * HOUR_MS
                  ≤ MAX_DATE_MS) →
  pv_status pv = true → pv_dataStatus pv = ChargeSuccess →
  pv_additionalHours pv = Some (x_additionalHours d) →
  ∃ sessionId s s',
    e_sessionId body = Some sessionId
    ∧ findById sessionId db = Some s
    ∧ code (verifyConsultationPayment (x_reference d) (Ok pv) now' db).2 = 200
    ∧ findById sessionId
        (verifyConsultationPayment (x_reference d) (Ok pv) now' db).1 = Some s'
    ∧ (inject_Z (paymentAmount s')
       == inject_Z (paymentAmount s) + 100 * x_extensionCost d)%Q
    ∧ (length (extensions s') = S (length (extensions s)))%nat
    ∧ (∀ e, expiresAt s = Some e → e ≠ 0 →
         expiresAt s' = Some (e + x_additionalHours d * HOUR_MS)).
Proof.
  intros Hwf Hd Hids _ Hok Hcharge Hhours.
  destruct (extension_quoted _ _ _ _ _ _ Hd)
    as (sessionId & h & s & Hsid & Hh & Hs & Hst & Hlive & Hone & Hdd).
  assert (x_additionalHours d = h) as Hxh by (by rewrite Hdd).
  assert (verifiedHours pv = h) as Hv.
  { unfold verifiedHours. rewrite Hhours, Hxh.
    by rewrite bool_decide_eq_false_2 by lia. }
  assert (sessionOfReference (x_reference d) db = Some s) as Href.
  { rewrite Hdd. simpl. rewrite extension_reference_designates; [done|].
    by apply Hids. }
  assert (isExtensionReference (x_reference d) = true) as Hkind
    by (rewrite Hdd; apply isExtensionReference_EXTEND).
  destruct (extendSession_active now' h (x_reference d) s Hst Hone)
    as (s' & Hext & Hexts & Hexp).
  pose proof (wf_keyed db Hwf sessionId s Hs) as Hkey.
  assert (verifyConsultationPayment (x_reference d) (Ok pv) now' db
          = (saveSession s' db,
             answer "Session extended successfully" (verifyData now' s')))
    as Hverify.
  { unfold verifyConsultationPayment.
    rewrite bool_decide_eq_false_2 by (rewrite Hdd; discriminate).
    by rewrite Href, Hok, Hcharge, Hkind, Hv, Hext. }
  pose proof (extendSession_Ok _ _ _ _ _ Hext) as (_ & _ & _ & Hpay & _).
  pose proof (extendSession_identity _ _ _ _ _ Hext) as (Hid & _).
  exists sessionId, s, s'. rewrite Hverify. simpl.
  split; [done|]. split; [done|]. split; [done|].
  split; [unfold findById; simpl; rewrite Hid, Hkey; apply lookup_insert_eq|].
  split.
  { rewrite Hpay, Hdd. simpl. rewrite inject_Z_plus.
    by rewrite Qmult_div_r. }
  split; [rewrite Hexts, length_app; simpl; lia|].
  intros e He Hz. rewrite Hexp, Hxh. f_equal. f_equal.
  unfold expiryOrNow. rewrite He. by rewrite bool_decide_eq_false_2.
Qed.

Lemma extension_quote_then_verification_witness :
  ∃ s', findById "s1"
          (verifyConsultationPayment "EXTEND_s1_u9"
             (Ok (mkPaystackVerify true ChargeSuccess 3550000 (Some 2)))
             3600000 dbActive).1 = Some s'
        ∧ (inject_Z (paymentAmount s') == inject_Z 5000 + 100 * (10000 # 100))%Q
        ∧ expiresAt s' = Some (3602000 + 2 * HOUR_MS).
Proof.
  assert (wellFormed dbActive) as Hwf
    by apply verification_wellFormed, dbBooked_wellFormed.
  destruct (extension_quote_then_verification
              (mkExtendBody (Some "s1") (Some 2) None) "u9" 3500000 dbActive
              (mkExtendData "EXTEND_s1_u9" (inject_Z 10000 / 100) 2
                            (Some 3602000))
              (mkPaystackVerify true ChargeSuccess 3550000 (Some 2)) 3600000
              Hwf eq_refl)
    as (sessionId & s & s' & Hsid & Hs & _ & Hs' & Hpay & _ & Hexp);
    [by intros ? [= <-]
    | intros ? s [= <-] Hs; injection Hs as <-; vm_compute; discriminate
    | reflexivity | reflexivity | reflexivity |].
  injection Hsid as <-.
  assert (s = sessionOf dbActive) as ->
    by (unfold sessionOf; by rewrite Hs).
  exists s'. split; [exact Hs'|]. split; [exact Hpay|].
  apply (Hexp 3602000); [reflexivity | discriminate].
Defined.

(** ** The status query, again *)

Lemma substring_all t : String.substring 0 (String.length t) t = t.
Proof. induction t as [|c t IH]; simpl; [done | by rewrite IH]. Qed.

Lemma bearerToken_Bearer t : bearerToken (Some ("Bearer " +:+ t)) = Some t.
Proof.
  unfold bearerToken. simpl. f_equal.
  change ("" +:+ t) with t.
  replace (String.prefix "" t) with true by (by destruct t).
  rewrite Nat.sub_0_r. change ("" +:+ ?x) with x. apply substring_all.
Qed.

(** X14.  How a status query is let in: without an [Authorization] header
    it is answered 401; with the header [Bearer <token>] it is answered
    500 for a session id that is not an [ObjectId] (the store holding its
    documents under [ObjectId]s), 404 for an [ObjectId] that has no
    session, 403 when the token is not the session's own, and 200 when it
    is; the first four write nothing. *)
Theorem status_query_authorisation sessionId now db :
  getSessionStatus sessionId None now db = (db, failure 401 "Session token required")
  ∧ (∀ token, token ≠ "" →
       (∀ k s, sessions db !! k = Some s → isValidObjectId k = true) →
       isValidObjectId sessionId = false →
       (getSessionStatus sessionId (Some ("Bearer " +:+ token)) now db).1 = db
       ∧ code (getSessionStatus sessionId (Some ("Bearer " +:+ token)) now db).2
         = 500
       ∧ message (getSessionStatus sessionId (Some ("Bearer " +:+ token)) now db).2
         = "Internal server error")
  ∧ (∀ token, token ≠ "" → isValidObjectId sessionId = true →
       findById sessionId db = None →
       getSessionStatus sessionId (Some ("Bearer " +:+ token)) now db
       = (db, failure 404 "Session not found"))
  ∧ (∀ token s, token ≠ "" → findById sessionId db = Some s →
       token ≠ sessionToken s →
       getSessionStatus sessionId (Some ("Bearer " +:+ token)) now db
       = (db, failure 403 "Invalid session token"))
  ∧ (∀ s, sessionToken s ≠ "" → findById sessionId db = Some s →
       code (getSessionStatus sessionId
               (Some ("Bearer " +:+ sessionToken s)) now db).2 = 200).
Proof.
  split; [done|]. split; [|split; [|split]].
  - intros token Hne Hkeys Hbad. unfold getSessionStatus.
    rewrite bearerToken_Bearer, (truthyStr_Some _ Hne).
    rewrite (findByIdParam_cast_first _ _ Hkeys), Hbad. done.
  - intros token Hne Hoid Hnone. unfold getSessionStatus.
    rewrite bearerToken_Bearer, (truthyStr_Some _ Hne).
    rewrite (findByIdParam_None _ _ Hnone), Hoid. done.
  - intros token s Hne Hs Hdiff. unfold getSessionStatus.
    rewrite bearerToken_Bearer, (truthyStr_Some _ Hne).
    rewrite (findByIdParam_Some _ _ _ Hs). simpl.
    rewrite bool_decide_eq_true_2; [done|]. intros [= H]. by apply Hdiff.
  - intros s Hne Hs. unfold getSessionStatus.
    rewrite bearerToken_Bearer, (truthyStr_Some _ Hne).
    rewrite (findByIdParam_Some _ _ _ Hs). simpl.
    rewrite bool_decide_eq_false_2 by (intros H; by apply H).
    by destruct (isExpired now s && _).
Qed.

Lemma status_query_authorisation_witness :
  code (getSessionStatus "64b7f0c2a1d3e4f5a6b7c8d9" (Some "Bearer jwt.ada")
          3000 dbActiveOid).2 = 200
  ∧ getSessionStatus "64b7f0c2a1d3e4f5a6b7c8d9" (Some "Bearer jwt.eve")
      3000 dbActiveOid
    = (dbActiveOid, failure 403 "Invalid session token")
  ∧ getSessionStatus "64b7f0c2a1d3e4f5a6b7c8da" (Some "Bearer jwt.ada")
      3000 dbActiveOid
    = (dbActiveOid, failure 404 "Session not found")
  ∧ code (getSessionStatus "s2" (Some "Bearer jwt.ada") 3000 dbActiveOid).2
    = 500.
Proof.
  destruct (status_query_authorisation "64b7f0c2a1d3e4f5a6b7c8d9" 3000
              dbActiveOid) as (_ & _ & _ & Hother & Hown).
  destruct (status_query_authorisation "64b7f0c2a1d3e4f5a6b7c8da" 3000
              dbActiveOid) as (_ & _ & Hunknown & _).
  destruct (status_query_authorisation "s2" 3000 dbActiveOid)
    as (_ & Hcast & _).
  let v := eval vm_compute in
    (default (newSession "" "" "" "" "" "" 0)
             (findById "64b7f0c2a1d3e4f5a6b7c8d9" dbActiveOid)) in
  set (s0 := v).
  assert (findById "64b7f0c2a1d3e4f5a6b7c8d9" dbActiveOid = Some s0) as Hs0
    by (vm_compute; reflexivity).
  split; [|split; [|split]].
  - apply (Hown s0); [discriminate | exact Hs0].
  - apply (Hother "jwt.eve" s0); [discriminate | exact Hs0 | discriminate].
  - apply (Hunknown "jwt.ada"); [discriminate | reflexivity | vm_compute; reflexivity].
  - apply (Hcast "jwt.ada"); [discriminate | | reflexivity].
    intros k s Hk.
    destruct (decide (k = "64b7f0c2a1d3e4f5a6b7c8d9")) as [->|Hne];
      [reflexivity|].
    exfalso. revert Hk.
    replace (sessions dbActiveOid)
      with (<["64b7f0c2a1d3e4f5a6b7c8d9" := s0]> (∅ : gmap string Session))
      by (vm_compute; reflexivity).
    rewrite lookup_insert_ne by done. by rewrite lookup_empty.
Defined.

(** X15.  A status query repeated at the same instant gets the same
    answer and writes nothing more, so a session is expired, and the
    client's [activeSessions] taken down, once; and once a query has
    answered a status other than ['active'], no status query writes to the
    store again. *)
Theorem status_query_repeated sessionId authorization now db :
  (∀ s, findById sessionId db = Some s → _id s = sessionId) →
  let first := getSessionStatus sessionId authorization now db in
  getSessionStatus sessionId authorization now first.1 = first
  ∧ (∀ d, data first.2 = Some d → q_status d ≠ active →
       ∀ authorization' now',
         (getSessionStatus sessionId authorization' now' first.1).1 = first.1).
Proof.
  intros Hkey first. subst first. unfold getSessionStatus, findByIdParam.
  destruct (negb (truthyStr (bearerToken authorization))) eqn:Htok; simpl.
  { done. }
  destruct (findById sessionId db) as [s|] eqn:Hs; simpl.
  2: { destruct (isValidObjectId sessionId) eqn:Hoid; simpl;
       rewrite Hs, ?Hoid; done. }
  specialize (Hkey s eq_refl).
  case_bool_decide as Hmatch; simpl.
  { rewrite Hs. rewrite bool_decide_eq_true_2 by done. done. }
  destruct (isExpired now s && bool_decide (status s = active)) eqn:Hflip; simpl.
  - assert (findById sessionId
              (incClient (clientId s) 0 (-1)
                 (saveSession (withStatus expired s) db))
            = Some (withStatus expired s)) as Hlook.
    { unfold findById. simpl. rewrite Hkey. apply lookup_insert_eq. }
    rewrite Hlook. simpl.
    rewrite bool_decide_eq_false_2 by (intros Hne; by apply Hne).
    rewrite andb_false_r. split; [done|].
    intros d _ _ authorization' now'.
    destruct (negb (truthyStr (bearerToken authorization'))); [done|].
    destruct (bool_decide (_ ≠ bearerToken authorization')); [done|].
    by rewrite andb_false_r.
  - rewrite Hs. rewrite bool_decide_eq_false_2 by (intros Hne; by apply Hne).
    rewrite Hflip. split; [done|].
    intros d [= <-] Hst authorization' now'. simpl in Hst.
    destruct (negb (truthyStr (bearerToken authorization'))); [done|].
    destruct (bool_decide (_ ≠ bearerToken authorization')); [done|].
    rewrite (bool_decide_eq_false_2 (status s = active)) by done.
    by rewrite andb_false_r.
Qed.

Lemma status_query_repeated_witness :
  getSessionStatus "s1" (Some "Bearer jwt.ada") 4000000
    (getSessionStatus "s1" (Some "Bearer jwt.ada") 4000000 dbActive).1
  = getSessionStatus "s1" (Some "Bearer jwt.ada") 4000000 dbActive
  ∧ Client.activeSessions <$>
      clients (getSessionStatus "s1" (Some "Bearer jwt.ada") 9000000
                 (getSessionStatus "s1" (Some "Bearer jwt.ada") 4000000
                    dbActive).1).1 !! "c1" = Some 0.
Proof.
  destruct (status_query_repeated "s1" (Some "Bearer jwt.ada") 4000000 dbActive)
    as [Hsame Hlater].
  { intros s Hs. assert (s = sessionOf dbActive) as ->; [|reflexivity].
    unfold sessionOf. by rewrite Hs. }
  split; [exact Hsame|].
  rewrite (Hlater (statusData 4000000 (withStatus expired (sessionOf dbActive)))
             eq_refl ltac:(discriminate) (Some "Bearer jwt.ada") 9000000).
  reflexivity.
Defined.

(** X16.  What a status answer reports is consistent at the instant of
    the answer: the remaining time is not negative; a status ['active']
    is never reported with an expiry behind the clock; [isActive] is
    reported exactly for an ['active'] session whose payment is
    completed; and then the remaining time is the distance to the
    expiry. *)
Theorem status_answer_consistent sessionId authorization now db d :
  data (getSessionStatus sessionId authorization now db).2 = Some d →
  0 ≤ q_remainingTime d
  ∧ (q_status d = active → ∀ e, q_expiresAt d = Some e → now ≤ e)
  ∧ (q_isActive d = true ↔
     q_status d = active ∧ q_paymentStatus d = PayCompleted)
  ∧ (q_isActive d = true → ∀ e, q_expiresAt d = Some e →
     q_remainingTime d = e - now).
Proof.
  assert (∀ s, (status s = active → isExpired now s = false) →
            0 ≤ getRemainingTime now s
            ∧ (status s = active → ∀ e, expiresAt s = Some e → now ≤ e)
            ∧ (isActive now s = true ↔
               status s = active ∧ paymentStatus s = PayCompleted)
            ∧ (isActive now s = true → ∀ e, expiresAt s = Some e →
               getRemainingTime now s = e - now)) as Hanswer.
  { intros s Hlive. split; [|split; [|split]].
    - unfold getRemainingTime. destruct (expiresAt s); lia.
    - intros Hst. by apply isExpired_false, Hlive.
    - unfold isActive. rewrite !andb_true_iff, !bool_decide_eq_true.
      rewrite negb_true_iff. split; [tauto|].
      intros [Hst Hpay]. split; [done | by apply Hlive].
    - intros Hact e He. apply isActive_active_live in Hact as (_ & _ & Hle).
      specialize (Hle e He). unfold getRemainingTime. rewrite He. lia. }
  unfold getSessionStatus.
  destruct (negb _); [done|].
  unfold findByIdParam.
  destruct (findById sessionId db) as [s|];
    [|by destruct (isValidObjectId sessionId)].
  case_bool_decide; [done|].
  destruct (isExpired now s && bool_decide (status s = active)) eqn:Hflip;
    simpl; intros [= <-]; simpl.
  - apply (Hanswer (withStatus expired s)). by intros [=].
  - apply (Hanswer s). intros Hst.
    apply andb_false_iff in Hflip as [Hexp|Hno]; [done|].
    by apply bool_decide_eq_false in Hno.
Qed.

Lemma status_answer_consistent_witness :
  ∃ d, data (getSessionStatus "s1" (Some "Bearer jwt.ada") 3000 dbActive).2
       = Some d
       ∧ q_isActive d = true
       ∧ q_remainingTime d = 3602000 - 3000.
Proof.
  eexists. split; [reflexivity|].
  destruct (status_answer_consistent "s1" (Some "Bearer jwt.ada") 3000 dbActive
              _ eq_refl) as (_ & _ & Hact & Hrem).
  assert (q_isActive (statusData 3000 (sessionOf dbActive)) = true) as Htrue
    by (apply Hact; by split).
  split; [exact Htrue|]. by apply (Hrem Htrue 3602000).
Defined.

(** ** Client tokens on the socket server *)

(** X17.  A client token is accepted, and gives back the session id and
    the anonymous id it was minted for, until 25 hours (in whole seconds)
    after it was minted, and is refused from then on. *)
Theorem client_token_round_trip sign unsign sessionId anon now now' :
  unsign (sign (clientTokenClaims sessionId anon now))
  = Some (clientTokenClaims sessionId anon now) →
  verifyClientSessionToken unsign now'
    (generateClientSessionToken sign sessionId anon now)
  = if bool_decide (now' / 1000 >= now / 1000 + 25 * 3600) then None
    else Some (Some sessionId, Some anon).
Proof.
  intros Hgenuine.
  unfold verifyClientSessionToken, jwtVerify, generateClientSessionToken.
  rewrite Hgenuine. simpl.
  by destruct (bool_decide (now' / 1000 >= now / 1000 + 25 * 3600)).
Qed.

Lemma client_token_round_trip_witness :
  verifyClientSessionToken demoUnsign 89999999
    (generateClientSessionToken anonSign "s1" "ANON-7Q2KXA" 0)
  = Some (Some "s1", Some "ANON-7Q2KXA")
  ∧ verifyClientSessionToken demoUnsign 90000000
      (generateClientSessionToken anonSign "s1" "ANON-7Q2KXA" 0)
    = None.
Proof.
  split.
  - rewrite (client_token_round_trip anonSign demoUnsign "s1" "ANON-7Q2KXA" 0
               89999999 eq_refl). reflexivity.
  - rewrite (client_token_round_trip anonSign demoUnsign "s1" "ANON-7Q2KXA" 0
               90000000 eq_refl). reflexivity.
Defined.

(** X18.  The token handed out at booking is not a client token: genuine
    and unexpired as it may be, [verifyClientSessionToken] refuses it for
    its type, and a socket that presents it at the handshake is bound to
    no session and joined to no room, whether or not it also names a
    professional. *)
Theorem booking_token_opens_no_room sign unsign clientId' username
    professionalId' now now' sk pro srv :
  unsign (sign (bookingTokenClaims clientId' username professionalId' now))
  = Some (bookingTokenClaims clientId' username professionalId' now) →
  sign (bookingTokenClaims clientId' username professionalId' now) ≠ "" →
  verifyClientSessionToken unsign now'
    (sign (bookingTokenClaims clientId' username professionalId' now)) = None
  ∧ onConnection unsign sk
      (mkHandshake None
         (Some (sign (bookingTokenClaims clientId' username professionalId' now)))
         pro) now' srv
    = srv.
Proof.
  intros Hgenuine Hne.
  assert (verifyClientSessionToken unsign now'
            (sign (bookingTokenClaims clientId' username professionalId' now))
          = None) as Hrefused.
  { unfold verifyClientSessionToken, jwtVerify. rewrite Hgenuine. simpl.
    by destruct (bool_decide _). }
  split; [done|].
  unfold onConnection. simpl.
  rewrite bool_decide_eq_true_2 by done. by rewrite Hrefused.
Qed.

Lemma booking_token_opens_no_room_witness :
  verifyClientSessionToken
    (λ t, if bool_decide (t = "jwt.ada")
          then Some (bookingTokenClaims "c1" "ada" "p1" 1000) else None)
    2000 "jwt.ada" = None
  ∧ onConnection
      (λ t, if bool_decide (t = "jwt.ada")
            then Some (bookingTokenClaims "c1" "ada" "p1" 1000) else None)
      "skC" (mkHandshake None (Some "jwt.ada") None) 2000 noServer
    = noServer.
Proof.
  apply (booking_token_opens_no_room demoSign
           (λ t, if bool_decide (t = "jwt.ada")
                 then Some (bookingTokenClaims "c1" "ada" "p1" 1000) else None)
           "c1" "ada" "p1" 1000 2000 "skC" None noServer);
    [reflexivity | discriminate].
Defined.

(** ** The chat handler of the socket server *)

Lemma length_rev_app s1 s2 :
  String.length (String.rev_app s1 s2)
  = (String.length s1 + String.length s2)%nat.
Proof.
  revert s2. induction s1 as [|c s1 IH]; intros s2; simpl; [done|].
  rewrite IH. simpl. lia.
Qed.

Lemma length_trimStart s : (String.length (trimStart s) ≤ String.length s)%nat.
Proof.
  induction s as [|c s IH]; simpl; [done|].
  destruct (Ascii.is_space c); simpl; lia.
Qed.

Lemma length_trim s : (String.length (trim s) ≤ String.length s)%nat.
Proof.
  unfold trim, String.rev. rewrite length_rev_app. simpl.
  pose proof (length_trimStart (String.rev_app (trimStart s) "")) as H1.
  rewrite length_rev_app in H1. simpl in H1.
  pose proof (length_trimStart s). lia.
Qed.

(** A send is either refused, with an error to the sender and nothing
    else, or goes through in full. *)
Lemma chat_refused_or_sent sk sessionId content mid now srv db :
  ((consultationMessage sk sessionId content mid now srv db).1 = db
   ∧ ∃ msg, (consultationMessage sk sessionId content mid now srv db).2
            = [socketEmit sk (ConsultationError msg)])
  ∨ (∃ text s senderId senderType,
       content = Some text
       ∧ text ≠ "" ∧ trim text ≠ "" ∧ (String.length text ≤ 2000)%nat
       ∧ findById sessionId db = Some s
       ∧ (status s = active ∨ status s = pending)
       ∧ (∀ e, endsAt s = Some e → now ≤ e)
       ∧ senderOf (dataOf sk srv) sessionId s = Some (Some senderId, senderType)
       ∧ senderId ≠ ""
       ∧ consultationMessage sk sessionId content mid now srv db
         = (saveSession (touchByMessage now senderType s)
              (saveMessage (Message.mk mid (_id s) senderId senderType
                              (trim text) Message.text false now) db),
            [SaveMessage (Message.mk mid (_id s) senderId senderType
                            (trim text) Message.text false now);
             SaveSession (touchByMessage now senderType s);
             Emit (ioTo (consultationRoom sessionId) srv)
                  (ConsultationMessage
                     (Message.mk mid (_id s) senderId senderType
                                 (trim text) Message.text false now))])).
Proof.
  unfold consultationMessage.
  destruct content as [text|]; [|left; eauto].
  destruct (negb (truthyStr (Some text)) || _ || _) eqn:Hbad; [left; eauto|].
  apply orb_false_iff in Hbad as [Hbad Hlong].
  apply orb_false_iff in Hbad as [Hempty Hblank].
  apply negb_false_iff, bool_decide_eq_true in Hempty.
  apply bool_decide_eq_false in Hblank, Hlong.
  destruct (findById sessionId db) as [s|]; [|left; eauto].
  destruct (bool_decide (status s ≠ active) && bool_decide (status s ≠ pending))
    eqn:Hclosed; [left; eauto|].
  destruct (match endsAt s with Some _ => _ | None => _ end) eqn:Hover;
    [left; eauto|].
  destruct (senderOf _ _ _) as [[senderId senderType]|] eqn:Hsender;
    [|left; eauto].
  destruct (negb (truthyStr senderId)) eqn:Hid; [left; eauto|].
  right. destruct senderId as [senderId|]; [|done].
  apply negb_false_iff, bool_decide_eq_true in Hid.
  exists text, s, senderId, senderType. simpl.
  split; [done|]. split; [done|]. split.
  { intros Hnil. apply Hblank. by rewrite Hnil. }
  split; [lia|]. split; [done|]. split.
  { apply andb_false_iff in Hclosed as [H|H]; apply bool_decide_eq_false in H.
    - left. by destruct (decide (status s = active)).
    - right. by destruct (decide (status s = pending)). }
  split; [|done].
  intros e He. rewrite He in Hover. apply bool_decide_eq_false in Hover. lia.
Qed.

(** X19.  Isolation of the chat rooms: a socket bound as the client of
    one session cannot send into another session, a socket bound as a
    professional cannot send into a session of another professional, and
    an unbound socket cannot send at all; the send writes nothing,
    reaches nobody else and is answered with an error. *)
Theorem chat_isolation sk sessionId content mid now srv db :
  (d_userType (dataOf sk srv) = None
   ∨ (d_userType (dataOf sk srv) = Some client
      ∧ d_sessionId (dataOf sk srv) ≠ Some sessionId)
   ∨ (d_userType (dataOf sk srv) = Some professional
      ∧ ∀ s, findById sessionId db = Some s →
             d_professionalId (dataOf sk srv) ≠ Some (professionalId s))) →
  (consultationMessage sk sessionId content mid now srv db).1 = db
  ∧ ∃ msg, (consultationMessage sk sessionId content mid now srv db).2
           = [socketEmit sk (ConsultationError msg)].
Proof.
  intros Hunbound.
  destruct (chat_refused_or_sent sk sessionId content mid now srv db)
    as [Hrefused|Hsent]; [done|].
  exfalso.
  destruct Hsent as (text & s & senderId & senderType & _ & _ & _ & _ & Hs & _
                     & _ & Hsender & _).
  revert Hsender. unfold senderOf.
  destruct Hunbound as [Hnone|[[Hclient Hother]|[Hpro Hother]]].
  - by rewrite Hnone.
  - rewrite Hclient. by rewrite bool_decide_eq_true_2.
  - rewrite Hpro. rewrite bool_decide_eq_true_2; [done|].
    intros Heq. by apply (Hother s Hs).
Qed.

Lemma chat_isolation_witness :
  (consultationMessage "skC" "s2" (Some "hi") "m1" 2500 srvClient dbActive).1
  = dbActive
  ∧ ∃ msg,
      (consultationMessage "skC" "s2" (Some "hi") "m1" 2500 srvClient dbActive).2
      = [socketEmit "skC" (ConsultationError msg)].
Proof.
  apply (chat_isolation "skC" "s2" (Some "hi") "m1" 2500 srvClient dbActive).
  right. left. split; [reflexivity | discriminate].
Defined.

(** X20.  What a chat message has passed when it is relayed: a text that
    is not blank and at most 2000 characters long, a stored session that
    is ['active'] or ['pending'] and whose [endsAt] is not behind the
    clock, and a socket bound to that session.  The message stored is the
    trimmed text, between 1 and 2000 characters long, appended to the
    message log; the session gets the instant of the message, and the
    unread flag when the sender is the client. *)
Theorem chat_relayed_gate sk sessionId content mid now srv db to m :
  In (Emit to (ConsultationMessage m))
     (consultationMessage sk sessionId content mid now srv db).2 →
  ∃ text s,
    content = Some text
    ∧ (String.length text ≤ 2000)%nat
    ∧ findById sessionId db = Some s
    ∧ (status s = active ∨ status s = pending)
    ∧ (∀ e, endsAt s = Some e → now ≤ e)
    ∧ (Message.senderType m = client →
       d_sessionId (dataOf sk srv) = Some sessionId)
    ∧ (Message.senderType m = professional →
       d_professionalId (dataOf sk srv) = Some (professionalId s))
    ∧ Message.content m = trim text
    ∧ (1 ≤ String.length (Message.content m) ≤ 2000)%nat
    ∧ messages (consultationMessage sk sessionId content mid now srv db).1
      = (messages db ++ [m])%list
    ∧ ∃ s',
        sessions (consultationMessage sk sessionId content mid now srv db).1
          !! _id s = Some s'
        ∧ lastMessageAt s' = Some now
        ∧ hasUnreadMessages s'
          = if bool_decide (Message.senderType m = client) then true
            else hasUnreadMessages s.
Proof.
  destruct (chat_refused_or_sent sk sessionId content mid now srv db)
    as [[_ [msg Htrace]]|Hsent].
  { rewrite Htrace. simpl. by intros [[=]|[]]. }
  destruct Hsent as (text & s & senderId & senderType & Hc & Hne & Htrim & Hlen
                     & Hs & Hst & Hends & Hsender & Hid & Hrun).
  rewrite Hrun. simpl. intros [[=]|[[=]|[[= _ <-]|[]]]].
  exists text, s. simpl. repeat split; try done.
  - intros ->. revert Hsender. unfold senderOf.
    destruct (d_userType (dataOf sk srv)) as [[|]|]; [| |done].
    + case_bool_decide as Hb; [done|]. intros _.
      by destruct (decide (d_sessionId (dataOf sk srv) = Some sessionId)).
    + by case_bool_decide.
  - intros ->. revert Hsender. unfold senderOf.
    destruct (d_userType (dataOf sk srv)) as [[|]|]; [| |done].
    + by case_bool_decide.
    + case_bool_decide as Hb; [done|]. intros _.
      by destruct (decide (Some (professionalId s)
                           = d_professionalId (dataOf sk srv))).
  - destruct (trim text) eqn:Ht; [done | simpl; lia].
  - pose proof (length_trim text). lia.
  - eexists. split; [apply lookup_insert_eq|]. by split.
Qed.

Lemma chat_relayed_gate_witness :
  ∃ s',
    sessions (consultationMessage "skC" "s1" (Some "  hi ") "m1" 2500
                srvClient dbActive).1 !! "s1" = Some s'
    ∧ hasUnreadMessages s' = true
    ∧ Message.content <$>
        messages (consultationMessage "skC" "s1" (Some "  hi ") "m1" 2500
                    srvClient dbActive).1 = ["hi"].
Proof.
  destruct (chat_relayed_gate "skC" "s1" (Some "  hi ") "m1" 2500 srvClient
              dbActive (ioTo (consultationRoom "s1") srvClient)
              (Message.mk "m1" "s1" "ANON-7Q2KXA" client "hi" Message.text
                          false 2500))
    as (text & s & Hc & _ & Hs & _ & _ & _ & _ & _ & _ & Hlog & s' & Hs' & _
        & Hunread).
  { simpl. right. right. left. reflexivity. }
  assert (s = sessionOf dbActive) as ->
    by (unfold sessionOf; by rewrite Hs).
  exists s'. split; [exact Hs'|]. split; [exact Hunread|].
  rewrite Hlog. reflexivity.
Defined.

(** ** Rooms, signalling and leaving *)

Lemma members_join sk room room' srv :
  members room' (join sk room srv)
  = if decide (room = room') then {[sk]} ∪ members room srv
    else members room' srv.
Proof.
  unfold members, join. simpl. destruct (decide (room = room')) as [<-|Hne].
  - by rewrite lookup_insert_eq.
  - by rewrite lookup_insert_ne.
Qed.

Lemma members_leave sk room room' srv :
  members room' (leave sk room srv)
  = if decide (room = room') then members room srv ∖ {[sk]}
    else members room' srv.
Proof.
  unfold members, leave. simpl. destruct (decide (room = room')) as [<-|Hne].
  - rewrite lookup_alter_eq. destruct (rooms srv !! room); simpl; [done|].
    by rewrite empty_difference_L.
  - by rewrite lookup_alter_ne.
Qed.

Lemma members_setData sk d room srv :
  members room (setData sk d srv) = members room srv.
Proof. done. Qed.

(** X21.  Signalling and typing events go to the rest of the room and
    never back to the socket that sent them.  The WebSocket service
    forwards a call signal for any session its token finds, and answers an
    unknown token with an error to the sender alone; the socket server
    forwards a signal only for a stored ['active'] session, from the
    client bound to it or the professional it belongs to, and is silent
    otherwise. *)
Theorem signals_skip_the_sender :
  (∀ sk token signal type srv db to ev,
     In (to, ev) (callSignal sk token signal type srv db) →
     (ev = SignalError "Invalid session" ∧ to = {[sk]}
      ∧ findOne (λ s, bool_decide (sessionToken s = token)) db = None)
     ∨ (ev = CallSignal signal type ∧ (sk ∉ to)
        ∧ ∃ s, findOne (λ s, bool_decide (sessionToken s = token)) db = Some s
               ∧ to = members (consultationRoom (_id s)) srv ∖ {[sk]}))
  ∧ (∀ ev0 sk token srv db to ev,
       In (to, ev) (typing ev0 sk token srv db) → ev = ev0 ∧ sk ∉ to)
  ∧ (∀ sk sessionId signal srv db to ev,
       In (to, ev) (consultationSignal sk sessionId signal srv db) →
       (sk ∉ to)
       ∧ to = members (consultationRoom sessionId) srv ∖ {[sk]}
       ∧ ev = ConsultationSignal signal (d_userType (dataOf sk srv))
       ∧ ∃ s, findById sessionId db = Some s ∧ status s = active
              ∧ ((d_userType (dataOf sk srv) = Some client
                  ∧ d_sessionId (dataOf sk srv) = Some sessionId)
                 ∨ (d_userType (dataOf sk srv) = Some professional
                    ∧ d_professionalId (dataOf sk srv)
                      = Some (professionalId s)))).
Proof.
  assert (∀ sk (X : gset string), sk ∉ X ∖ {[sk]}) as Hout.
  { intros sk X Hin. apply elem_of_difference in Hin as [_ Hno].
    apply Hno. by apply elem_of_singleton. }
  split; [|split].
  - intros sk token signal type srv db to ev. unfold callSignal.
    destruct (findOne _ db) as [s|]; simpl; intros [[= <- <-]|[]].
    + right. split; [done|]. split; [apply Hout|]. by exists s.
    + by left.
  - intros ev0 sk token srv db to ev. unfold typing.
    destruct (findOne _ db) as [s|]; simpl; [|done].
    intros [[= <- <-]|[]]. split; [done | apply Hout].
  - intros sk sessionId signal srv db to ev. unfold consultationSignal.
    destruct (findById sessionId db) as [s|]; [|done].
    case_bool_decide as Hst; [done|].
    destruct (negb _) eqn:Hauth; [done|].
    simpl. intros [[= <- <-]|[]].
    split; [apply Hout|]. split; [done|]. split; [done|].
    exists s. split; [done|].
    split; [by destruct (decide (status s = active))|].
    apply negb_false_iff, orb_true_iff in Hauth as [H|H];
      apply andb_true_iff in H as [H1 H2];
      apply bool_decide_eq_true in H1, H2; [left | right]; by split.
Qed.

Lemma signals_skip_the_sender_witness :
  consultationSignal "skC" "s1" "sdp" srvClient dbActive
  = [(members (consultationRoom "s1") srvClient ∖ {["skC"]},
      ConsultationSignal "sdp" (Some client))]
  ∧ "skC" ∉ members (consultationRoom "s1") srvClient ∖ {["skC"]}.
Proof.
  destruct signals_skip_the_sender as (_ & _ & Hsignal).
  destruct (Hsignal "skC" "s1" "sdp" srvClient dbActive
              (members (consultationRoom "s1") srvClient ∖ {["skC"]})
              (ConsultationSignal "sdp" (Some client)))
    as (Hout & _); [left; reflexivity|].
  split; [reflexivity | exact Hout].
Defined.

(** X22.  Joining and leaving: a socket that joins with the token of a
    session that is not past its expiry is in the room of that session
    afterwards, a pending session being activated for its booked duration
    on the way; with an unknown token, or past the expiry, it joins
    nothing and nothing is written.  On a well formed store, leaving with
    the same token takes exactly that socket out of the room again. *)
Theorem join_then_leave sk token now srv db :
  (∀ s, findOne (λ s, bool_decide (sessionToken s = token)) db = Some s →
        isExpired now s = false →
        sk ∈ members (consultationRoom (_id s))
                     (joinConsultation sk token now srv db).1.2
        ∧ (status s = pending →
           ∃ s', sessions (joinConsultation sk token now srv db).1.1 !! _id s
                 = Some s'
                 ∧ status s' = active ∧ startedAt s' = Some now
                 ∧ expiresAt s' = Some (now + currentDuration s))
        ∧ (wellFormed db →
           members (consultationRoom (_id s))
             (leaveConsultation sk token
                (joinConsultation sk token now srv db).1.2
                (joinConsultation sk token now srv db).1.1)
           = members (consultationRoom (_id s)) srv ∖ {[sk]}))
  ∧ ((findOne (λ s, bool_decide (sessionToken s = token)) db = None
      ∨ ∃ s, findOne (λ s, bool_decide (sessionToken s = token)) db = Some s
             ∧ isExpired now s = true) →
     (joinConsultation sk token now srv db).1 = (db, srv)).
Proof.
  assert (∀ (X : gset string), ({[sk]} ∪ X) ∖ {[sk]} = X ∖ {[sk]}) as Hdrop.
  { intros X. apply set_eq. intros x.
    rewrite !elem_of_difference, elem_of_union, elem_of_singleton. tauto. }
  split.
  - intros s Hs Hlive.
    assert ((joinConsultation sk token now srv db).1
            = (if bool_decide (status s = pending)
               then saveSession (activateOnJoin now s) db else db,
               join sk (consultationRoom (_id s)) srv)) as Hrun.
    { unfold joinConsultation. rewrite Hs, Hlive. by case_bool_decide. }
    rewrite Hrun. simpl. split; [|split].
    + rewrite members_join, decide_True by done.
      by apply elem_of_union_l, elem_of_singleton.
    + intros Hpending. rewrite bool_decide_eq_true_2 by done.
      eexists. split; [apply lookup_insert_eq | done].
    + intros Hwf.
      pose proof (findOne_stored _ _ _ Hwf Hs) as [Hstored Htok].
      apply bool_decide_eq_true in Htok.
      assert (∃ s', findOne (λ s, bool_decide (sessionToken s = token))
                      (if bool_decide (status s = pending)
                       then saveSession (activateOnJoin now s) db else db)
                    = Some s' ∧ _id s' = _id s) as (s' & Hs' & Hid).
      { case_bool_decide; [|by exists s].
        exists (activateOnJoin now s). split; [|done].
        apply findOne_unique.
        - exists (_id s). simpl. apply lookup_insert_eq.
        - by apply bool_decide_eq_true.
        - intros k x. simpl. destruct (decide (_id s = k)) as [<-|Hk].
          + rewrite lookup_insert_eq. by intros [= <-].
          + rewrite lookup_insert_ne by done. intros Hx HP. exfalso.
            apply bool_decide_eq_true in HP. apply Hk.
            apply (wf_tokens db Hwf (_id s) k s x Hstored Hx). congruence. }
      unfold leaveConsultation. rewrite Hs', Hid.
      rewrite members_leave, decide_True by done.
      rewrite members_join, decide_True by done. apply Hdrop.
  - intros [Hnone|[s [Hs Hexp]]]; unfold joinConsultation.
    + by rewrite Hnone.
    + by rewrite Hs, Hexp.
Qed.

Lemma join_then_leave_witness :
  "skJ" ∈ members (consultationRoom "s1")
                  (joinConsultation "skJ" "jwt.ada" 2000 noServer dbBooked).1.2
  ∧ members (consultationRoom "s1")
      (leaveConsultation "skJ" "jwt.ada"
         (joinConsultation "skJ" "jwt.ada" 2000 noServer dbBooked).1.2
         (joinConsultation "skJ" "jwt.ada" 2000 noServer dbBooked).1.1)
    = members (consultationRoom "s1") noServer ∖ {["skJ"]}.
Proof.
  destruct (join_then_leave "skJ" "jwt.ada" 2000 noServer dbBooked)
    as [Hjoin _].
  destruct (Hjoin (sessionOf dbBooked) eq_refl eq_refl) as (Hin & _ & Hleave).
  split; [exact Hin|]. apply Hleave, dbBooked_wellFormed.
Defined.

(** X23.  A socket that connects without a session token, as a
    professional or as a job-board user, is joined to no consultation
    room: the membership of every consultation room is what it was before
    the connection. *)
Theorem professional_joins_no_consultation_room unsign sk userId pro now srv
    sessionId :
  members (consultationRoom sessionId)
          (onConnection unsign sk (mkHandshake userId None pro) now srv)
  = members (consultationRoom sessionId) srv.
Proof.
  assert (∀ x, "user:" +:+ x ≠ consultationRoom sessionId) as Huser
    by (intros x; unfold consultationRoom; simpl; discriminate).
  assert (∀ x, "professional:" +:+ x ≠ consultationRoom sessionId) as Hpro
    by (intros x; unfold consultationRoom; simpl; discriminate).
  unfold onConnection. simpl.
  destruct (truthyStr pro).
  - rewrite members_join, decide_False by apply Hpro.
    rewrite members_setData.
    destruct (truthyStr userId); [|done].
    by rewrite members_join, decide_False by apply Huser.
  - destruct (truthyStr userId); [|done].
    by rewrite members_join, decide_False by apply Huser.
Qed.

(** ** The review gate, again *)



(** ** The chat handler of the WebSocket service *)

(** X25.  The ['message:send'] handler relays a message only after
    [addMessage] has stored it, for a session its token finds and whose
    expiry is not behind the clock; when the token is unknown, the
    session is past its expiry or [addMessage] throws, the store is left
    as it was, nothing is broadcast, and the sender alone gets an error,
    the thrown message in the last case. *)
Theorem messageSend_refused_or_relayed addMessage sk token message'
    senderType now srv db :
  let sent := messageSend addMessage sk token message' senderType now srv db in
  (sent.1 = db
   ∧ ∃ msg, sent.2 = [socketEmit sk (ErrorEvent msg)]
            ∧ (∀ s e,
                 findOne (λ s, bool_decide (sessionToken s = token)) db = Some s →
                 isExpired now s = false →
                 addMessage (mkMessageData now (_id s) message' senderType now)
                            s db = Throw e →
                 msg = e))
  ∨ (∃ s, findOne (λ s, bool_decide (sessionToken s = token)) db = Some s
          ∧ (∀ e, expiresAt s = Some e → now ≤ e)
          ∧ addMessage (mkMessageData now (_id s) message' senderType now) s db
            = Ok sent.1
          ∧ sent.2
            = [AddMessage (mkMessageData now (_id s) message' senderType now);
               Emit (members (consultationRoom (_id s)) srv)
                    (MessageReceived
                       (mkMessageData now (_id s) message' senderType now))]).
Proof.
  simpl. unfold messageSend.
  destruct (findOne _ db) as [s|] eqn:Hs.
  - destruct (isExpired now s) eqn:Hexp.
    + left. split; [done|]. eexists. split; [done|].
      intros s0 e [= <-] Hlive. congruence.
    + destruct (addMessage _ s db) as [db'|e] eqn:Hadd.
      * right. exists s. split; [done|]. split; [|by split].
        by apply isExpired_false.
      * left. split; [done|]. exists e. split; [done|].
        intros s0 e0 [= <-] _ Hthrow. congruence.
  - left. split; [done|]. eexists. split; [done|]. by intros s e [=].
Qed.
